(** * Echo JS SDK: the shared user session and the canvas bootstrap

    A shallow embedding of [user-session.js] (the [Echo.UserSession]
    singleton) and of [canvas.js] (the [Echo.Canvas] control), with the
    properties the specification states about them.

    - [JS]: the JavaScript values the two files compute with, and the
      operators they apply to them ([||], [!], [==], property access).
    - [UserSession]: the session store ([get], [set], [is], [has],
      [any] and their delegates) and the resolution state machine
      ([_construct], [_init], [_onInit], [_listenEvents], [logout]).
    - [Canvas]: the bootstrap pipeline ([init], [_fetchConfig],
      [_initUser], [_loadAppResources], [_initApp]) and [destroy].  The
      DOM that the control renders is not modelled.
    - [Samples]: pages and canvases the properties are tried on.
    - [SessionTheorems], [CanvasTheorems]: the properties the
      specification states.
    - [SessionLifecycle], [CanvasLifecycle]: further properties of the
      code: the normalized payload, the store after a response, logout,
      the set-up of the session; the marker, the registry and the
      reports of a canvas.

    The collaborators that are not in the two files ([Echo.Events],
    [Backplane], [Echo.Utils], [Echo.Control], [Echo.Loader],
    [Echo.API.Request], jQuery) appear as the events a computation
    leaves in its trace, or are modelled where a comment says so.  The
    functions that callers pass in are opaque: calling one is an event of
    the trace. *)

From Stdlib Require Import String Ascii List ZArith Bool Lia DecimalString.
Import ListNotations.
Open Scope string_scope.
Set Warnings "-register-all".

(* ================================================================== *)
(** ** JavaScript values *)
(* ================================================================== *)

Module JS.

(** The values that JSON payloads and configuration objects are made of.
    Numbers are the integers; an object is the list of its own
    properties, in insertion order.  Functions are not values of this
    type: the callbacks of the two files are modelled where they are
    used. *)
Inductive value : Type :=
| VUndefined
| VNull
| VBool (b : bool)
| VNum (n : Z)
| VStr (s : string)
| VArr (items : list value)
| VObj (fields : list (string * value)).

Definition object : Type := list (string * value).

(** [!!v] *)
Definition truthy (v : value) : bool :=
  match v with
  | VUndefined | VNull => false
  | VBool b => b
  | VNum n => negb (n =? 0)%Z
  | VStr s => negb (s =? "")
  | VArr _ | VObj _ => true
  end.

(** [a || b] *)
Definition or_else (a b : value) : value := if truthy a then a else b.

Definition nullish (v : value) : bool :=
  match v with VUndefined | VNull => true | _ => false end.

(** [o[k]] for an object given by its properties. *)
Fixpoint field (o : object) (k : string) : value :=
  match o with
  | [] => VUndefined
  | (k', v) :: rest => if k' =? k then v else field rest k
  end.

(** [o[k] = v]: an existing property keeps its place. *)
Fixpoint set_field (o : object) (k : string) (v : value) : object :=
  match o with
  | [] => [(k, v)]
  | (k', v') :: rest =>
      if k' =? k then (k, v) :: rest else (k', v') :: set_field rest k v
  end.

Definition index_key (i : nat) : string :=
  NilZero.string_of_uint (Nat.to_uint i).

Fixpoint at_key {A : Type} (l : list A) (i : nat) (k : string) : option A :=
  match l with
  | [] => None
  | x :: rest => if index_key i =? k then Some x else at_key rest (S i) k
  end.

Fixpoint chars (s : string) : list string :=
  match s with
  | EmptyString => []
  | String c rest => String c EmptyString :: chars rest
  end.

(** [v[k]] where [v] is neither [undefined] nor [null]: own properties
    of objects, [length] and the indices of arrays and strings; the
    properties inherited from prototypes are not part of the model. *)
Definition prop (v : value) (k : string) : value :=
  match v with
  | VObj o => field o k
  | VArr l =>
      if k =? "length" then VNum (Z.of_nat (List.length l))
      else match at_key l 0 k with Some x => x | None => VUndefined end
  | VStr s =>
      if k =? "length" then VNum (Z.of_nat (String.length s))
      else match at_key (chars s) 0 k with
           | Some c => VStr c
           | None => VUndefined
           end
  | _ => VUndefined
  end.

(** What [$.each] and [$.map] iterate over: the items of an array, the
    property values of an object, nothing for the other values. *)
Definition elements (v : value) : list value :=
  match v with
  | VArr l => l
  | VObj o => map snd o
  | _ => []
  end.

Definition is_array (v : value) : bool :=
  match v with VArr _ => true | _ => false end.

Definition is_string (v : value) : bool :=
  match v with VStr _ => true | _ => false end.

Definition Z_to_string (n : Z) : string := NilZero.string_of_int (Z.to_int n).

(** [String(v)]; an array prints its items joined by commas, with
    [undefined] and [null] items printed empty.  An integer prints in
    full: the exponent notation that JavaScript uses from 1e21 on is
    not modelled. *)
Fixpoint ToString (v : value) : string :=
  match v with
  | VUndefined => "undefined"
  | VNull => "null"
  | VBool true => "true"
  | VBool false => "false"
  | VNum n => Z_to_string n
  | VStr s => s
  | VArr l =>
      String.concat ","
        (map (fun x => if nullish x then "" else ToString x) l)
  | VObj _ => "[object Object]"
  end.

Definition is_space (c : ascii) : bool :=
  match nat_of_ascii c with
  | 9 | 10 | 11 | 12 | 13 | 32 => true
  | _ => false
  end.

Fixpoint trim_left (s : string) : string :=
  match s with
  | String c rest => if is_space c then trim_left rest else s
  | EmptyString => EmptyString
  end.

Fixpoint rev_string (s acc : string) : string :=
  match s with
  | EmptyString => acc
  | String c rest => rev_string rest (String c acc)
  end.

Definition trim (s : string) : string :=
  rev_string (trim_left (rev_string (trim_left s) "")) "".

Definition digit (c : ascii) : option Z :=
  let n := nat_of_ascii c in
  if andb (48 <=? n)%nat (n <=? 57)%nat then Some (Z.of_nat (n - 48)) else None.

Fixpoint digits (s : string) (acc : Z) : option Z :=
  match s with
  | EmptyString => Some acc
  | String c rest =>
      match digit c with
      | Some d => digits rest (10 * acc + d)%Z
      | None => None
      end
  end.

(** [Number(s)] for a string, with [None] for [NaN].  The numbers of the
    model are the integers, so the decimal integer literals are read
    (signed, surrounded by white space, the empty string being 0); the
    other numeric spellings of JavaScript read as [NaN] here. *)
Definition ToNumber (s : string) : option Z :=
  match trim s with
  | EmptyString => Some 0%Z
  | String "-" (String c r) => option_map Z.opp (digits (String c r) 0)
  | String "+" (String c r) => digits (String c r) 0
  | t => digits t 0
  end.

(** The primitive an operand of [==] is compared as: a boolean as a
    number, an array or an object as its string. *)
Definition ToPrimitive (v : value) : value :=
  match v with
  | VBool b => VNum (if b then 1 else 0)
  | VArr _ | VObj _ => VStr (ToString v)
  | _ => v
  end.

(** [a == b].  Two objects are equal when they are the same object; the
    comparisons of the two files have a string, [undefined] or a freshly
    built array on one side, so two objects never are. *)
Definition loose_eq (a b : value) : bool :=
  match a, b with
  | (VArr _ | VObj _), (VArr _ | VObj _) => false
  | _, _ =>
      match ToPrimitive a, ToPrimitive b with
      | (VUndefined | VNull), (VUndefined | VNull) => true
      | VNum x, VNum y => (x =? y)%Z
      | VStr x, VStr y => x =? y
      | VNum x, VStr s | VStr s, VNum x =>
          match ToNumber s with Some y => (x =? y)%Z | None => false end
      | _, _ => false
      end
  end.

(** [a === b] between a caller's value and a stored one: primitives by
    value, objects never (they are distinct objects). *)
Definition strict_eq (a b : value) : bool :=
  match a, b with
  | VUndefined, VUndefined | VNull, VNull => true
  | VBool x, VBool y => Bool.eqb x y
  | VNum x, VNum y => (x =? y)%Z
  | VStr x, VStr y => x =? y
  | _, _ => false
  end.

(** [$.inArray(v, l) >= 0] *)
Definition inArray (v : value) (l : list value) : bool :=
  existsb (strict_eq v) l.

Definition to_upper (c : ascii) : ascii :=
  let n := nat_of_ascii c in
  if andb (97 <=? n)%nat (n <=? 122)%nat then ascii_of_nat (n - 32) else c.

(** [key.charAt(0).toUpperCase() + key.slice(1)], on ASCII keys. *)
Definition capitalize (key : string) : string :=
  match key with
  | EmptyString => EmptyString
  | String c rest => String (to_upper c) rest
  end.

End JS.

(* ================================================================== *)
(** ** Echo.UserSession *)
(* ================================================================== *)

Module UserSession.
Import JS.

(** *** The singleton and the page around it *)

(** [user.state]: ["init"], ["waiting"], ["ready"]. *)
Inductive State : Type := Init | Waiting | Ready.

(** The argument of [Echo.UserSession(config)]: its [appkey] member and
    its optional [ready] function.  A function supplied by a caller is
    named by a number; calling it is an observable event. *)
Record Config : Type := {
  appkey : value;
  ready : option nat
}.

(** The identity payload, raw and normalized: the members that the file
    reads, each a value ([undefined] when the member is missing). *)
Record Data : Type := {
  result : value;
  echo : value;
  poco : value;
  identities : value
}.

(** [{}] *)
Definition empty : Data :=
  {| result := VUndefined; echo := VUndefined; poco := VUndefined;
     identities := VUndefined |}.

(** The functions handed around as callbacks. *)
Inductive Callback : Type :=
| ReadyOf (c : Config)  (* function() { (config.ready || function() {}).call(user) } *)
| Invalidate            (* the function [_listenEvents] passes to [_init] *)
| Fn (f : nat).         (* a function of the caller *)

(** A request in flight, with the callback its response handler closes
    over. *)
Inductive Request : Type :=
| Whoami (params : object) (callback : Callback)
| Logout (params : object) (callback : option nat).

Inductive Event : Type :=
| Get (endpoint : string) (params : object)   (* $.get(endpoint, params, _, "jsonp") *)
| Call (f : nat)                              (* a function of a caller runs *)
| Publish (topic : string)                    (* Echo.Events.publish *)
| BackplaneSubscribe                          (* Backplane.subscribe *)
| ExpectMessages (type : string).             (* Backplane.expectMessages *)

Record World : Type := mkWorld {
  (* the fields of Echo.UserSession *)
  state : option State;
  data : option Data;
  identity : value;
  config : option Config;
  backplaneSubscriptionID : option nat;
  (* the page: window.location.protocol, Backplane.getChannelID() *)
  protocol : string;
  channelID : value;
  (* Echo.Events: the handlers of the topic Echo.UserSession.onInit, in
     subscription order, and the next handler id *)
  handlers : list (nat * Callback);
  nextHandlerId : nat;
  (* the requests in flight, oldest first, and what has been observed *)
  pending : list Request;
  trace : list Event
}.

(** The page before the first call. *)
Definition fresh (protocol : string) (channelID : value) : World :=
  mkWorld None None VUndefined None None protocol channelID [] 0 [] [].

Definition set_state (s : State) (w : World) : World :=
  mkWorld (Some s) (data w) (identity w) (config w) (backplaneSubscriptionID w)
    (protocol w) (channelID w) (handlers w) (nextHandlerId w) (pending w) (trace w).

Definition set_data (d : Data) (w : World) : World :=
  mkWorld (state w) (Some d) (identity w) (config w) (backplaneSubscriptionID w)
    (protocol w) (channelID w) (handlers w) (nextHandlerId w) (pending w) (trace w).

Definition set_identity (v : value) (w : World) : World :=
  mkWorld (state w) (data w) v (config w) (backplaneSubscriptionID w)
    (protocol w) (channelID w) (handlers w) (nextHandlerId w) (pending w) (trace w).

Definition set_config (c : Config) (w : World) : World :=
  mkWorld (state w) (data w) (identity w) (Some c) (backplaneSubscriptionID w)
    (protocol w) (channelID w) (handlers w) (nextHandlerId w) (pending w) (trace w).

Definition set_backplaneSubscriptionID (n : nat) (w : World) : World :=
  mkWorld (state w) (data w) (identity w) (config w) (Some n)
    (protocol w) (channelID w) (handlers w) (nextHandlerId w) (pending w) (trace w).

Definition set_handlers (hs : list (nat * Callback)) (next : nat) (w : World) : World :=
  mkWorld (state w) (data w) (identity w) (config w) (backplaneSubscriptionID w)
    (protocol w) (channelID w) hs next (pending w) (trace w).

Definition set_pending (rs : list Request) (w : World) : World :=
  mkWorld (state w) (data w) (identity w) (config w) (backplaneSubscriptionID w)
    (protocol w) (channelID w) (handlers w) (nextHandlerId w) rs (trace w).

Definition emit (es : list Event) (w : World) : World :=
  mkWorld (state w) (data w) (identity w) (config w) (backplaneSubscriptionID w)
    (protocol w) (channelID w) (handlers w) (nextHandlerId w) (pending w)
    (trace w ++ es).

(** *** Computations: the world is threaded, a [TypeError] stops them *)

Inductive outcome (A : Type) : Type :=
| Ok (a : A)
| Throw.
Arguments Ok {A} a.
Arguments Throw {A}.

Definition M (A : Type) : Type := World -> outcome A * World.

Definition ret {A : Type} (a : A) : M A := fun w => (Ok a, w).

Definition throw {A : Type} : M A := fun w => (Throw, w).

Definition bind {A B : Type} (m : M A) (k : A -> M B) : M B :=
  fun w =>
    match m w with
    | (Ok a, w') => k a w'
    | (Throw, w') => (Throw, w')
    end.

Definition modify (f : World -> World) : M unit := fun w => (Ok tt, f w).

Definition read {A : Type} (f : World -> A) : M A := fun w => (Ok (f w), w).

Definition lift {A : Type} (o : outcome A) : M A := fun w => (o, w).

Notation "x <- m ;; k" := (bind m (fun x => k))
  (at level 61, m at next level, right associativity).
Notation "m ;;; k" := (bind m (fun _ => k))
  (at level 61, right associativity).

(** [v[k]], which throws when [v] is [undefined] or [null]. *)
Definition get_prop (v : value) (k : string) : outcome value :=
  if nullish v then Throw else Ok (prop v k).

(** [v[k] = x] in strict mode: a property of an object is set, a
    primitive makes the assignment throw.  The only target is
    [user.identity], which is [{}] or an account of the payload that has
    a [loggedIn] property, so never an array. *)
Definition set_prop (v : value) (k : string) (x : value) : outcome value :=
  match v with
  | VObj o => Ok (VObj (set_field o k x))
  | _ => Throw
  end.

(** *** The store: [get], [is], [has], [any] and their delegates *)

(** The own properties of a value that can be given properties: those
    of an object, and for an array its items and its [length].  A
    primitive has none to give: in strict mode, which the file is in,
    an assignment to a property of a primitive throws. *)
Definition own_properties (v : value) : option object :=
  match v with
  | VObj o => Some o
  | VArr l =>
      Some (combine (map index_key (seq 0 (List.length l))) l
            ++ [("length", VNum (Z.of_nat (List.length l)))])%list
  | _ => None
  end.

(** [_normalize], applied to the copy [$.extend({}, data)].  The three
    assignments to [data.echo] throw when [data.echo] is a truthy
    primitive.  Nothing in the file reads [data.echo] but for its
    properties, so the [echo] that is returned is the object of its
    properties, also when an array was given. *)
Definition _normalize (data : Data) : outcome Data :=
  match own_properties (or_else (echo data) (VObj [])) with
  | None => Throw
  | Some e =>
      let e := set_field e "state" (or_else (field e "state") (VStr "Untouched")) in
      let e := set_field e "roles" (or_else (field e "roles") (VArr [])) in
      let e := set_field e "markers" (or_else (field e "markers") (VArr [])) in
      let p := or_else (poco data) (VObj [("entry", VObj [])]) in
      match get_prop (prop p "entry") "accounts" with
      | Throw => Throw
      | Ok accounts =>
          Ok {| result := result data; echo := VObj e; poco := p;
                identities := or_else accounts (VArr []) |}
      end
  end.

(** [_attrLocation] *)
Definition _attrLocation (key : string) : M value :=
  fun w =>
    if inArray (VStr key) [VStr "roles"; VStr "state"; VStr "markers"]
    then match data w with
         | None => (Throw, w)
         | Some d => (Ok (echo d), w)
         end
    else (Ok (identity w), w).

(** The active identity and the accounts.  In the browser
    [user.identity], once a response is handled, is one of the account
    objects of [user.data.poco.entry.accounts] (and [user.data.identities]
    is that same array): what is written to the identity, the caches
    [activeIdentities] and [avatar] and what [set] stores, is written
    to that account.  The values of this model are not shared:
    [identity] holds the account as it was when [_reset] chose it, and
    what is written to it afterwards shows in [identity] alone.  The
    properties below are about what is read back through
    [user.identity], the state and the events, where the two agree. *)

(** The callback of [$.map] in [_getActiveIdentities]: the entries whose
    [loggedIn] equals ["true"], in order. *)
Fixpoint logged_in (entries : list value) : outcome (list value) :=
  match entries with
  | [] => Ok []
  | entry :: rest =>
      match get_prop entry "loggedIn" with
      | Throw => Throw
      | Ok flag =>
          match logged_in rest with
          | Throw => Throw
          | Ok l => Ok (if loose_eq flag (VStr "true") then entry :: l else l)
          end
      end
  end.

Definition _getActiveIdentities : M value :=
  fun w =>
    match data w with
    | None => (Throw, w)
    | Some d =>
        if negb (truthy (poco d)) || negb (truthy (prop (poco d) "entry"))
        then (Ok VUndefined, w)
        else if truthy (identity w) && truthy (prop (identity w) "activeIdentities")
        then (Ok (prop (identity w) "activeIdentities"), w)
        else
          let accounts :=
            or_else (prop (prop (poco d) "entry") "accounts") (VArr []) in
          match logged_in (elements accounts) with
          | Throw => (Throw, w)
          | Ok l =>
              if truthy (identity w)
              then match set_prop (identity w) "activeIdentities" (VArr l) with
                   | Throw => (Throw, w)
                   | Ok i => (Ok (VArr l), set_identity i w)
                   end
              else (Ok (VArr l), w)
          end
    end.

(** Modelled from the spec: [Echo.Utils.foldl] is not among the sources;
    the avatar is the value of the first photo record of type
    ["avatar"]. *)
Fixpoint first_avatar (photos : list value) : outcome value :=
  match photos with
  | [] => Ok VUndefined
  | img :: rest =>
      match get_prop img "type" with
      | Throw => Throw
      | Ok t => if loose_eq t (VStr "avatar") then Ok (prop img "value")
                else first_avatar rest
      end
  end.

Definition _getAvatar : M value :=
  fun w =>
    match get_prop (identity w) "avatar" with
    | Throw => (Throw, w)
    | Ok cached =>
        let found :=
          if truthy cached then Ok cached
          else first_avatar (elements (or_else (prop (identity w) "photos") (VArr []))) in
        match found with
        | Throw => (Throw, w)
        | Ok avatar =>
            match set_prop (identity w) "avatar" avatar with
            | Throw => (Throw, w)
            | Ok i => (Ok avatar, set_identity i w)
            end
        end
    end.

Definition _getName : M value :=
  fun w =>
    (Ok (if truthy (identity w)
         then or_else (prop (identity w) "displayName") (prop (identity w) "username")
         else VUndefined), w).

Definition _getSessionID : M value := read channelID.

Definition endpoint_logout (w : World) : string :=
  (if protocol w =? "https:" then "https:" else "http:")
    ++ "//apps.echoenabled.com/v2/logout".

Definition endpoint_whoami (w : World) : string :=
  (if protocol w =? "https:" then "https:" else "http:")
    ++ "//api.echoenabled.com/v1/users/whoami".

Definition _getDefaultConfig : M value :=
  fun w =>
    let protocol := if protocol w =? "https:" then "https:" else "http:" in
    (Ok (VObj
      [("appkey", VStr "");
       ("endpoints", VObj [("logout", VStr (endpoint_logout w));
                           ("whoami", VStr (endpoint_whoami w))]);
       ("defaultAvatar",
        VStr (protocol ++ "//cdn.echoenabled.com/images/avatar-default.png"));
       ("fakeIdentityURL", VStr "http://js-kit.com/ECHO/user/fake_user")]), w).

(** [user["_get" + name]]: the functions of the singleton that a [get]
    finds under that name ([_getDefaultConfig] is one of them). *)
Definition get_handler (name : string) : option (M value) :=
  if name =? "ActiveIdentities" then Some _getActiveIdentities
  else if name =? "Avatar" then Some _getAvatar
  else if name =? "Name" then Some _getName
  else if name =? "SessionID" then Some _getSessionID
  else if name =? "DefaultConfig" then Some _getDefaultConfig
  else None.

(** The fallback of [get]: [value == undefined ? defaults : value]. *)
Definition get_fallback (key : string) (defaults : value) : M value :=
  location <- _attrLocation key ;;
  value <- lift (get_prop location key) ;;
  ret (if loose_eq value VUndefined then defaults else value).

(** [Echo.UserSession.get], through [_maybeDelegate]. *)
Definition get (key : string) (defaults : value) : M value :=
  match get_handler (capitalize key) with
  | Some handler => handler
  | None => get_fallback key defaults
  end.

Definition _isLogged : M value :=
  activeIdentities <- get "activeIdentities" VUndefined ;;
  ret (VBool (truthy activeIdentities && truthy (prop activeIdentities "length"))).

(** [Echo.UserSession.is] ([is] is a reserved word here): it has no
    fallback. *)
Definition is_ (key : string) : M value :=
  if capitalize key =? "Logged" then _isLogged else ret VUndefined.

(** The loop of the fallback of [any]: [$.each(values, ...)], left at the
    first value that satisfies. *)
Fixpoint any_each (key : string) (values : list value) : M bool :=
  match values with
  | [] => ret false
  | value :: rest =>
      data <- get key (VObj []) ;;
      if (is_string data && loose_eq data value)
         || (is_array data && inArray value (elements data))
      then ret true
      else any_each key rest
  end.

Definition any_fallback (key : string) (values : list value) : M bool :=
  fun w => if negb (truthy (identity w)) then (Ok false, w) else any_each key values w.

(** [Echo.UserSession.any].  [_anyMarker] and [_anyRole] call [any] again
    with the keys ["markers"] and ["roles"], which have no delegate. *)
Definition any (key : string) (values : list value) : M bool :=
  if capitalize key =? "Marker" then any_fallback "markers" values
  else if capitalize key =? "Role" then any_fallback "roles" values
  else any_fallback key values.

(** The loop of [_hasIdentity]. *)
Fixpoint hasIdentity_each (entries : list value) (identityUrl : value) : outcome bool :=
  match entries with
  | [] => Ok false
  | identity :: rest =>
      match get_prop identity "identityUrl" with
      | Throw => Throw
      | Ok url =>
          if truthy url && loose_eq url identityUrl then Ok true
          else hasIdentity_each rest identityUrl
      end
  end.

Definition _hasIdentity (identityUrl : value) : M bool :=
  fun w =>
    match data w with
    | None => (Throw, w)
    | Some d => (hasIdentity_each (elements (identities d)) identityUrl, w)
    end.

(** [Echo.UserSession.has]: the delegate receives [config.arg], the
    array [[value]]. *)
Definition has (key : string) (value : value) : M bool :=
  if capitalize key =? "Identity" then _hasIdentity (VArr [value])
  else any key [value].

(** *** Events, requests and the resolution state machine *)

(** What running a callback shows: the caller's function is called, or
    [Echo.UserSession.onInvalidate] is published. *)
Definition fire (callback : Callback) : list Event :=
  match callback with
  | ReadyOf c => match ready c with Some f => [Call f] | None => [] end
  | Invalidate => [Publish "Echo.UserSession.onInvalidate"]
  | Fn f => [Call f]
  end.

Definition call (callback : Callback) : M unit := modify (emit (fire callback)).

(** Modelled from the spec: [Echo.Events] is not among the sources.  It
    is the event bus of section 6: subscribe, unsubscribe and publish
    keyed by topic, [subscribe] returning the handle of the new handler
    and [publish] calling the handlers in subscription order. *)
Definition subscribe (callback : Callback) : M nat :=
  fun w =>
    (Ok (nextHandlerId w),
     set_handlers (handlers w ++ [(nextHandlerId w, callback)])
       (S (nextHandlerId w)) w).

Definition unsubscribe (handlerId : nat) : M unit :=
  modify (fun w =>
    set_handlers (filter (fun h => negb (fst h =? handlerId)%nat) (handlers w))
      (nextHandlerId w) w).

(** [_onInit]: the handler it subscribes unsubscribes itself, then calls
    the callback. *)
Definition _onInit (callback : option Callback) : M unit :=
  match callback with
  | None => ret tt
  | Some c => subscribe c ;;; ret tt
  end.

Definition onInit_handler (h : nat * Callback) : M unit :=
  unsubscribe (fst h) ;;; call (snd h).

Fixpoint call_handlers (hs : list (nat * Callback)) : M unit :=
  match hs with
  | [] => ret tt
  | h :: rest => onInit_handler h ;;; call_handlers rest
  end.

(** [Echo.Events.publish({"topic": "Echo.UserSession.onInit", ...})] *)
Definition publish_onInit : M unit :=
  modify (emit [Publish "Echo.UserSession.onInit"]) ;;;
  hs <- read handlers ;;
  call_handlers hs.

(** [_apiRequest]: the request leaves; its response comes later. *)
Definition _apiRequest (endpoint : string) (params : object) (r : Request) : M unit :=
  modify (fun w => set_pending (pending w ++ [r]) (emit [Get endpoint params] w)).

(** [_reset] *)
Definition _reset (payload : Data) : M unit :=
  d <- lift (_normalize payload) ;;
  modify (set_data d) ;;;
  modify (set_identity (VObj [])) ;;;
  identities <- get "activeIdentities" VUndefined ;;
  modify (set_identity
    (if truthy identities && truthy (prop identities "length")
     then prop identities "0" else VObj [])).

(** The response handler of [_init]. *)
Definition whoami_response (callback : Callback) (payload : Data) : M unit :=
  let payload :=
    if truthy (result payload) && loose_eq (result payload) (VStr "session_not_found")
    then empty else payload in
  modify (set_state Ready) ;;;
  _reset payload ;;;
  publish_onInit ;;;
  call callback.

(** [_init] *)
Definition _init (callback : Callback) : M unit :=
  modify (set_state Waiting) ;;;
  c <- (fun w => match config w with
                 | Some c => (Ok c, w)
                 | None => (Throw, w)
                 end) ;;
  endpoint <- read endpoint_whoami ;;
  sessionID <- get "sessionID" VUndefined ;;
  let params := [("appkey", appkey c); ("sessionID", sessionID)] in
  _apiRequest endpoint params (Whoami params callback).

(** Modelled from the spec: [Backplane] is not among the sources; its
    [subscribe] returns the handle of the subscription, here 1. *)
Definition Backplane_subscribe : M nat :=
  modify (emit [BackplaneSubscribe]) ;;; ret 1.

(** [_listenEvents] *)
Definition _listenEvents : M unit :=
  fun w =>
    match backplaneSubscriptionID w with
    | Some (S _) => (Ok tt, w)
    | _ => (id <- Backplane_subscribe ;;
            modify (set_backplaneSubscriptionID id)) w
    end.

(** The function [_listenEvents] subscribes, called with a message of
    the given type. *)
Definition on_message (type : string) : M unit :=
  if negb (type =? "identity/ack") then ret tt else _init Invalidate.

(** What [Echo.UserSession(config)] returns. *)
Inductive Returned : Type := Undefined | TheSession.

(** [_construct].  [None] is a falsy argument. *)
Definition _construct (config : option Config) : M Returned :=
  match config with
  | None => ret Undefined
  | Some c =>
      if negb (truthy (appkey c)) then ret Undefined
      else
        let callback := ReadyOf c in
        s <- read (fun w => match state w with Some s => s | None => Init end) ;;
        modify (set_state s) ;;;
        match s with
        | Waiting => _onInit (Some callback)
        | Ready => call callback
        | Init =>
            modify (set_data empty) ;;;
            modify (set_config c) ;;;
            _listenEvents ;;;
            _init callback
        end ;;;
        ret TheSession
  end.

(** The response handler of [logout]. *)
Definition logout_response (callback : option nat) : M unit :=
  _onInit (option_map Fn callback) ;;;
  modify (emit [ExpectMessages "identity/ack"]).

(** [Echo.UserSession.logout] *)
Definition logout (callback : option nat) : M unit :=
  logged <- is_ "logged" ;;
  if negb (truthy logged)
  then
    _reset empty ;;;
    match callback with Some f => call (Fn f) | None => ret tt end
  else
    c <- (fun w => match config w with
                   | Some c => (Ok c, w)
                   | None => (Throw, w)
                   end) ;;
    endpoint <- read endpoint_logout ;;
    sessionID <- get "sessionID" VUndefined ;;
    let params := [("sessionID", sessionID)] in
    _apiRequest endpoint params (Logout params callback).

(** *** What happens on the page, one turn at a time *)

Inductive Action : Type :=
| Construct (config : option Config)      (* Echo.UserSession(config) *)
| DoLogout (callback : option nat)        (* Echo.UserSession.logout(callback) *)
| Response (i : nat) (payload : Data)     (* the response of the i-th request in flight *)
| Message (type : string).                (* Backplane delivers a message *)

Fixpoint remove_nth {A : Type} (i : nat) (l : list A) : list A :=
  match i, l with
  | _, [] => []
  | O, _ :: rest => rest
  | S j, x :: rest => x :: remove_nth j rest
  end.

(** A turn runs to its end or to a [TypeError]; either way the world it
    leaves is the world of the next turn. *)
Definition step (a : Action) (w : World) : World :=
  match a with
  | Construct config => snd (_construct config w)
  | DoLogout callback => snd (logout callback w)
  | Response i payload =>
      match nth_error (pending w) i with
      | None => w
      | Some r =>
          let w' := set_pending (remove_nth i (pending w)) w in
          match r with
          | Whoami _ callback => snd (whoami_response callback payload w')
          | Logout _ callback => snd (logout_response callback w')
          end
      end
  | Message type =>
      match backplaneSubscriptionID w with
      | Some _ => snd (on_message type w)
      | None => w
      end
  end.


(** The identity-fetch requests in flight. *)
Definition is_whoami (r : Request) : bool :=
  match r with Whoami _ _ => true | Logout _ _ => false end.








(** *** Notions the properties are stated with *)

(** A computation keeps a relation when the world it leaves is related
    to the world it started in. *)
Definition keeps (R : World -> World -> Prop) {A : Type} (m : M A) : Prop :=
  forall w, R w (snd (m w)).

(** The same page but for [user.data] and [user.identity]. *)
Definition same_page (w w' : World) : Prop :=
  state w' = state w /\ config w' = config w
  /\ backplaneSubscriptionID w' = backplaneSubscriptionID w
  /\ protocol w' = protocol w /\ channelID w' = channelID w
  /\ handlers w' = handlers w /\ nextHandlerId w' = nextHandlerId w
  /\ pending w' = pending w /\ trace w' = trace w.

(** What the number of identity requests in flight depends on. *)
Definition core_eq (w w' : World) : Prop :=
  state w' = state w
  /\ filter is_whoami (pending w') = filter is_whoami (pending w)
  /\ config w' = config w
  /\ backplaneSubscriptionID w' = backplaneSubscriptionID w.


(** The handlers left on the bus when those of the given ids have
    unsubscribed. *)
Definition removing (ids : list nat) (hs : list (nat * Callback)) : list (nat * Callback) :=
  filter (fun h => negb (existsb (Nat.eqb (fst h)) ids)) hs.


(** *** Writing the store *)

(** [_setName] *)
Definition _setName (value : value) : M unit :=
  fun w =>
    match set_prop (identity w) "displayName" value with
    | Throw => (Throw, w)
    | Ok i => (Ok tt, set_identity i w)
    end.

(** The fallback of [set]: [user._attrLocation(key)[key] = value].  In
    the browser the active identity is one of the accounts of
    [user.data]; here it is a copy, so what [set] writes to it shows
    through [user.identity] (where [get] reads it) and not in the
    accounts of [user.data]. *)
Definition set_fallback (key : string) (value : value) : M unit :=
  fun w =>
    if inArray (VStr key) [VStr "roles"; VStr "state"; VStr "markers"]
    then match data w with
         | None => (Throw, w)
         | Some d =>
             match own_properties (echo d) with
             | None => (Throw, w)
             | Some o =>
                 (Ok tt, set_data {| result := result d;
                                     echo := VObj (set_field o key value);
                                     poco := poco d;
                                     identities := identities d |} w)
             end
         end
    else match set_prop (identity w) key value with
         | Throw => (Throw, w)
         | Ok i => (Ok tt, set_identity i w)
         end.

(** [Echo.UserSession.set]: the delegate receives [config.arg], the
    array [[value]]. *)
Definition set (key : string) (value : value) : M unit :=
  if capitalize key =? "Name" then _setName (VArr [value])
  else set_fallback key value.

(** *** Every page that can be reached *)

Inductive reachable : World -> Prop :=
| reachable_fresh : forall protocol channelID, reachable (fresh protocol channelID)
| reachable_step : forall a w, reachable w -> reachable (step a w).

(** The subscriptions to Backplane made so far. *)
Definition is_subscribe (e : Event) : bool :=
  match e with BackplaneSubscribe => true | _ => false end.

Definition subscriptions (w : World) : nat :=
  List.length (filter is_subscribe (trace w)).

(** The accounts of a normalized payload that are logged in: what
    [_getActiveIdentities] computes when nothing is cached. *)
Definition active_accounts (d : Data) : outcome (list value) :=
  if truthy (prop (poco d) "entry")
  then logged_in (elements (or_else (prop (prop (poco d) "entry") "accounts") (VArr [])))
  else Ok [].

(** The same page but for [user.identity].  (The model keeps the
    active identity apart from the accounts of [user.data], so what is
    written to the identity does not show in [user.data].) *)
Definition same_but_identity (w w' : World) : Prop :=
  same_page w w' /\ data w' = data w.

(** *** Notions the further properties are stated with *)

(** [data.echo] once [_normalize] has filled the three reserved
    members in. *)
Definition with_defaults (e0 : object) : object :=
  set_field
    (set_field
       (set_field e0 "state" (or_else (field e0 "state") (VStr "Untouched")))
       "roles" (or_else (field e0 "roles") (VArr [])))
    "markers" (or_else (field e0 "markers") (VArr [])).

(** The properties of [data.echo || {}]. *)
Definition given_echo (d : Data) : object :=
  match own_properties (or_else (echo d) (VObj [])) with
  | Some o => o
  | None => []
  end.

(** The test of the response handler of [_init]:
    [data.result && data.result == "session_not_found"]. *)
Definition not_found (payload : Data) : bool :=
  truthy (result payload) && loose_eq (result payload) (VStr "session_not_found").


(** What [(callback || function(){})()] shows. *)
Definition callback_events (callback : option nat) : list Event :=
  match callback with Some f => [Call f] | None => [] end.

(** What a turn leaves of the set-up of a constructed session: the
    configuration, the subscription to Backplane and their number; the
    data stay defined, and the state stays or becomes ["waiting"] or
    ["ready"]. *)
Definition same_setup (w w' : World) : Prop :=
  config w' = config w
  /\ backplaneSubscriptionID w' = backplaneSubscriptionID w
  /\ subscriptions w' = subscriptions w
  /\ (data w <> None -> data w' <> None)
  /\ (state w' = state w \/ state w' = Some Waiting \/ state w' = Some Ready).

(** The session after its first call with an appkey. *)
Definition constructed (w : World) : Prop :=
  subscriptions w = 1
  /\ backplaneSubscriptionID w <> None
  /\ config w <> None
  /\ data w <> None
  /\ (state w = Some Waiting \/ state w = Some Ready).

End UserSession.

(* ================================================================== *)
(** ** Echo.Canvas *)
(* ================================================================== *)

Module Canvas.
Import JS.

(** *** The canvas, its data and the page around it *)

(** An app descriptor of the canvas data.  [config], when present, is an
    object. *)
Record App : Type := {
  component : value;
  script : value;
  scripts : value;
  id : value;
  caption : value;
  config : option object
}.

(** The canvas data: the document kept in the storage, or given in the
    configuration of the canvas. *)
Record Data : Type := {
  apps : list App;
  backplane : value
}.

(** The session a canvas hands to its apps: the singleton, or an object
    supplied in the configuration. *)
Inductive User : Type := Singleton | Supplied (n : nat).

(** What [new Application(config)] is built from: the component, the id
    of the descriptor (explicit or positional), the configuration of the
    descriptor, the session, and the override of the canvas for this id
    ([$.extend(true, app.config, overrides)] merges it over the
    configuration). *)
Record Instance : Type := {
  inst_component : value;
  inst_id : value;
  inst_config : object;
  inst_user : option User;
  inst_overrides : value
}.

(** The argument of [_error], once the message is resolved. *)
Record Report : Type := {
  code : string;
  message : string;
  about : option App;
  renderError : bool
}.

Inductive Event : Type :=
| Published (r : Report)          (* Echo.Events.publish, topic Echo.Canvas.onError *)
| Logged (r : Report)             (* Echo.Utils.log *)
| Shown (message : string)        (* this.showMessage *)
| Requested (endpoint : value)    (* (new Echo.API.Request(...)).request() *)
| BackplaneInit (params : value)  (* Backplane.init *)
| SessionCalled (appkey : value)  (* Echo.UserSession({appkey, ready}) *)
| Download (urls : list value)    (* Echo.Loader.download *)
| Created (i : Instance)          (* new Application(config) *)
| Destroyed (i : Instance).       (* app.destroy() *)

(** What the pipeline waits for. *)
Inductive Pending : Type := AwaitConfig | AwaitSession | AwaitDownload.

Record Canvas : Type := mkCanvas {
  (* this.config: id, appkey, user, overrides *)
  config_id : value;
  config_appkey : value;
  config_user : option User;
  config_overrides : object;
  (* the target: data-canvas-id, data-canvas-appkey, echo-canvas-initialized *)
  target_id : value;
  target_appkey : value;
  initialized : value;
  (* this.data ([None] is the empty object) and this.apps *)
  data : option Data;
  registry : list (option Instance);
  (* Echo.Loader.isDebug() *)
  debug : bool;
  pending : option Pending;
  trace : list Event
}.

Definition set_config (i a : value) (c : Canvas) : Canvas :=
  mkCanvas i a (config_user c) (config_overrides c) (target_id c)
    (target_appkey c) (initialized c) (data c) (registry c) (debug c)
    (pending c) (trace c).

Definition set_user (u : option User) (c : Canvas) : Canvas :=
  mkCanvas (config_id c) (config_appkey c) u (config_overrides c) (target_id c)
    (target_appkey c) (initialized c) (data c) (registry c) (debug c)
    (pending c) (trace c).

Definition set_initialized (v : value) (c : Canvas) : Canvas :=
  mkCanvas (config_id c) (config_appkey c) (config_user c) (config_overrides c)
    (target_id c) (target_appkey c) v (data c) (registry c) (debug c)
    (pending c) (trace c).

Definition set_data (d : Data) (c : Canvas) : Canvas :=
  mkCanvas (config_id c) (config_appkey c) (config_user c) (config_overrides c)
    (target_id c) (target_appkey c) (initialized c) (Some d) (registry c)
    (debug c) (pending c) (trace c).

Definition push (i : Instance) (c : Canvas) : Canvas :=
  mkCanvas (config_id c) (config_appkey c) (config_user c) (config_overrides c)
    (target_id c) (target_appkey c) (initialized c) (data c)
    (registry c ++ [Some i]) (debug c) (pending c) (trace c).

Definition set_pending (p : option Pending) (c : Canvas) : Canvas :=
  mkCanvas (config_id c) (config_appkey c) (config_user c) (config_overrides c)
    (target_id c) (target_appkey c) (initialized c) (data c) (registry c)
    (debug c) p (trace c).

Definition emit (es : list Event) (c : Canvas) : Canvas :=
  mkCanvas (config_id c) (config_appkey c) (config_user c) (config_overrides c)
    (target_id c) (target_appkey c) (initialized c) (data c) (registry c)
    (debug c) (pending c) (trace c ++ es).

(** [canvas.labels] *)
Definition label (key : string) : string :=
  if key =? "error_no_apps" then "No applications defined for this canvas"
  else if key =? "error_no_config" then "Unable to retrieve Canvas config"
  else if key =? "error_no_suitable_app_class"
  then "Unable to init an app, no suitable JS class found"
  else if key =? "error_unable_to_retrieve_app_config"
  then "Unable to retrieve Canvas config from the storage"
  else if key =? "error_incomplete_app_config"
  then "Unable to init an app, config is incomplete"
  else if key =? "error_canvas_already_initialized"
  then "Canvas has been initialized already"
  else if key =? "error_invalid_canvas_config"
  then "Canvas with invalid configuration found"
  else key.

(** *** The methods *)

(** The events of one call of [_error]: the event (in debug mode), the
    log, the message shown. *)
Definition report_events (isDebug : bool) (r : Report) : list Event :=
  (if isDebug then [Published r] else [])
  ++ [Logged r]
  ++ (if renderError r then [Shown (message r)] else []).

(** [_error] *)
Definition _error (code : string) (message : option string) (about : option App)
    (renderError : bool) (c : Canvas) : Canvas :=
  emit (report_events (debug c)
          {| code := code;
             message := match message with
                        | Some m => m
                        | None => label ("error_" ++ code)
                        end;
             about := about;
             renderError := renderError |}) c.

(** [_isManuallyConfigured] *)
Definition _isManuallyConfigured (c : Canvas) : bool :=
  match data c with Some _ => true | None => false end.

(** [_getAppScriptURL] *)
Definition _getAppScriptURL (isDebug : bool) (app : App) : value :=
  if truthy (scripts app) && truthy (prop (scripts app) "dev")
     && truthy (prop (scripts app) "prod")
  then prop (scripts app) (if isDebug then "dev" else "prod")
  else script app.

(** The test of [_loadAppResources] on one descriptor. *)
Definition complete (isDebug isManual : bool) (app : App) : bool :=
  negb (negb (truthy (component app))
        || negb (truthy (_getAppScriptURL isDebug app))
        || negb (isManual || truthy (id app))).

(** The loop of [_loadAppResources]: an incomplete descriptor is
    reported and left out of the resources. *)
Fixpoint collect (isManual : bool) (l : list App) (resources : list value)
    (c : Canvas) : list value * Canvas :=
  match l with
  | [] => (resources, c)
  | app :: rest =>
      if complete (debug c) isManual app
      then collect isManual rest (resources ++ [_getAppScriptURL (debug c) app]) c
      else collect isManual rest resources
             (_error "incomplete_app_config" None (Some app) false c)
  end.

Definition data_apps (c : Canvas) : list App :=
  match data c with Some d => apps d | None => [] end.

(** [_loadAppResources] *)
Definition _loadAppResources (c : Canvas) : Canvas :=
  let '(resources, c) := collect (_isManuallyConfigured c) (data_apps c) [] c in
  set_pending (Some AwaitDownload) (emit [Download resources] c).

(** Modelled from the spec: [Echo.Utils.getComponent] is not among the
    sources; it finds the implementation registered under a component
    identifier.  [components] are the identifiers registered on the
    page. *)
Definition getComponent (components : list string) (name : value) : bool :=
  match name with
  | VStr s => existsb (String.eqb s) components
  | _ => false
  end.

(** [_initApp] *)
Definition _initApp (components : list string) (app : App) (position : nat)
    (c : Canvas) : Canvas :=
  if negb (getComponent components (component app))
  then _error "no_suitable_app_class" None (Some app) false c
  else
    let app_id := or_else (id app) (VNum (Z.of_nat position)) in
    let i := {| inst_component := component app;
                inst_id := app_id;
                inst_config := match config app with Some o => o | None => [] end;
                inst_user := config_user c;
                inst_overrides := field (config_overrides c) (ToString app_id) |} in
    push i (emit [Created i] c).

(** [renderers.container]: every descriptor of [data.apps], with its
    position. *)
Fixpoint container (components : list string) (l : list App) (position : nat)
    (c : Canvas) : Canvas :=
  match l with
  | [] => c
  | app :: rest =>
      container components rest (S position) (_initApp components app position c)
  end.

(** Modelled from the spec: [Echo.Control] is not among the sources.  The
    parent [init] that [_loadAppResources] is given ends the
    initialization by rendering the control, which runs the renderer of
    the container. *)
Definition parent (components : list string) (c : Canvas) : Canvas :=
  container components (data_apps c) 0 c.

(** [_initUser] and the callback [init] gives it. *)
Definition user_callback (user : option User) (c : Canvas) : Canvas :=
  _loadAppResources (set_user user c).

Definition _initUser (c : Canvas) : Canvas :=
  match config_user c with
  | Some u => user_callback (Some u) c
  | None =>
      if negb (truthy (config_appkey c)) then user_callback None c
      else set_pending (Some AwaitSession) (emit [SessionCalled (config_appkey c)] c)
  end.

(** [_initBackplane] and the callback [init] gives it. *)
Definition _initBackplane (c : Canvas) : Canvas :=
  _initUser (emit [BackplaneInit (match data c with
                                  | Some d => backplane d
                                  | None => VUndefined
                                  end)] c).

(** The callback [init] gives to [_fetchConfig]; [None] is a call
    without a configuration. *)
Definition config_callback (config : option Data) (c : Canvas) : Canvas :=
  match config with
  | None =>
      _error "invalid_canvas_config" (Some (label "error_no_config")) None true c
  | Some d =>
      match apps d with
      | [] => _error "invalid_canvas_config" (Some (label "error_no_apps")) None true c
      | _ :: _ => _initBackplane (set_data d c)
      end
  end.

(** [_fetchConfig] *)
Definition _fetchConfig (c : Canvas) : Canvas :=
  if _isManuallyConfigured c then config_callback (data c) c
  else set_pending (Some AwaitConfig) (emit [Requested (config_id c)] c).

(** The [onError] function of the request of [_fetchConfig]. *)
Definition onError (c : Canvas) : Canvas :=
  config_callback None (_error "unable_to_retrieve_app_config" None None false c).

(** Modelled from the spec: [Echo.Utils.foldl] is not among the sources;
    [_getOverrides] collects, for each of ["id"] and ["appkey"], the
    value the target defines. *)
Definition _getOverrides (c : Canvas) : Canvas :=
  set_config
    (match target_id c with VUndefined => config_id c | v => v end)
    (match target_appkey c with VUndefined => config_appkey c | v => v end) c.

(** [canvas.init] *)
Definition init (c : Canvas) : Canvas :=
  if truthy (initialized c)
  then _error "canvas_already_initialized" None None false c
  else
    let c := _getOverrides c in
    if negb (_isManuallyConfigured c)
       && negb (truthy (config_id c) && truthy (config_appkey c))
    then _error "invalid_canvas_config" None None false c
    else _fetchConfig (set_initialized (VBool true) c).

(** [_destroyApp] *)
Definition _destroyApp (app : option Instance) (c : Canvas) : Canvas :=
  match app with
  | Some i => emit [Destroyed i] c
  | None => c
  end.

(** [canvas.destroy] *)
Definition destroy (c : Canvas) : Canvas :=
  set_initialized (VBool false)
    (fold_left (fun c app => _destroyApp app c) (registry c) c).

(** *** What happens to a canvas, one turn at a time *)

Inductive Input : Type :=
| ConfigData (config : option Data)     (* the request succeeds: onData *)
| ConfigError                           (* the request fails: onError *)
| SessionReady                          (* the ready function of the session call *)
| Downloaded (components : list string). (* the downloads end *)

Definition step (i : Input) (c : Canvas) : Canvas :=
  match pending c, i with
  | Some AwaitConfig, ConfigData config => config_callback config (set_pending None c)
  | Some AwaitConfig, ConfigError => onError (set_pending None c)
  | Some AwaitSession, SessionReady => user_callback (Some Singleton) (set_pending None c)
  | Some AwaitDownload, Downloaded components => parent components (set_pending None c)
  | _, _ => c
  end.

(** The reports made so far, and the instances created so far. *)
Definition reports (c : Canvas) : list Report :=
  flat_map (fun e => match e with Logged r => [r] | _ => [] end) (trace c).

Definition published (c : Canvas) : list Report :=
  flat_map (fun e => match e with Published r => [r] | _ => [] end) (trace c).

(** The validation of a descriptor as the specification words it: the
    component is present, the script resolves, and an id can be derived,
    explicit, or positional when the canvas is not manually configured. *)
Definition spec_complete (isDebug isManual : bool) (app : App) : bool :=
  truthy (component app)
  && truthy (_getAppScriptURL isDebug app)
  && (truthy (id app) || negb isManual).

(** The reports of the pipeline. *)
Definition already_initialized : Report :=
  {| code := "canvas_already_initialized";
     message := "Canvas has been initialized already";
     about := None; renderError := false |}.

Definition unable_to_retrieve : Report :=
  {| code := "unable_to_retrieve_app_config";
     message := "Unable to retrieve Canvas config from the storage";
     about := None; renderError := false |}.

Definition no_config : Report :=
  {| code := "invalid_canvas_config";
     message := "Unable to retrieve Canvas config";
     about := None; renderError := true |}.

Definition incomplete (app : App) : Report :=
  {| code := "incomplete_app_config";
     message := "Unable to init an app, config is incomplete";
     about := Some app; renderError := false |}.

Definition no_class (app : App) : Report :=
  {| code := "no_suitable_app_class";
     message := "Unable to init an app, no suitable JS class found";
     about := Some app; renderError := false |}.

(** The entries of the registry that hold an instance. *)
Definition live (l : list (option Instance)) : list Instance :=
  flat_map (fun app => match app with Some i => [i] | None => [] end) l.

Definition requests (c : Canvas) : list Event :=
  filter (fun e => match e with
                   | Requested _ | SessionCalled _ | Download _ => true
                   | _ => false
                   end) (trace c).

(** *** Notions the further properties are stated with *)

(** The instances created so far, in the order of their creation. *)
Definition created (c : Canvas) : list Instance :=
  flat_map (fun e => match e with Created i => [i] | _ => [] end) (trace c).

(** What the stages of the pipeline do to a canvas: the debug flag and
    the marker of the target stay; the registry grows by the instances
    created; reports are added, and published when the debug flag is
    set. *)
Definition extends (c c' : Canvas) : Prop :=
  debug c' = debug c
  /\ initialized c' = initialized c
  /\ (exists l, registry c' = (registry c ++ map Some l)%list
                /\ created c' = (created c ++ l)%list)
  /\ (exists rs, reports c' = (reports c ++ rs)%list
                 /\ published c' = (published c ++ (if debug c then rs else []))%list).

(** The second guard of [init], on the configuration extended with what
    the target defines: the data are given, or both [id] and [appkey]
    are there. *)
Definition passes_guard (c : Canvas) : bool :=
  _isManuallyConfigured c
  || (truthy (config_id (_getOverrides c)) && truthy (config_appkey (_getOverrides c))).

(** The test of [_initUser], negated: no session is given and the appkey
    is there. *)
Definition needs_session (c : Canvas) : bool :=
  match config_user c with
  | Some _ => false
  | None => truthy (config_appkey (_getOverrides c))
  end.

(** The instance [_initApp] creates for a descriptor at a position. *)
Definition instance_of (c : Canvas) (app : App) (position : nat) : Instance :=
  let app_id := or_else (id app) (VNum (Z.of_nat position)) in
  {| inst_component := component app;
     inst_id := app_id;
     inst_config := match config app with Some o => o | None => [] end;
     inst_user := config_user c;
     inst_overrides := field (config_overrides c) (ToString app_id) |}.

Definition no_apps : Report :=
  {| code := "invalid_canvas_config";
     message := "No applications defined for this canvas";
     about := None; renderError := true |}.

(** *** The canvases of a run *)

(** A canvas that awaits nothing, whatever its configuration, and what
    [init], the answers it awaits and [destroy] make of it. *)
Inductive started : Canvas -> Prop :=
| started_new : forall c, pending c = None -> started c
| started_init : forall c, started c -> started (init c)
| started_step : forall i c, started c -> started (step i c)
| started_destroy : forall c, started c -> started (destroy c).

(** What the test of [_loadAppResources] comes to when
    [_isManuallyConfigured] holds: the component and the script are
    there. *)
Definition validated (isDebug : bool) (app : App) : bool :=
  truthy (component app) && truthy (_getAppScriptURL isDebug app).

(** What [_loadAppResources] then shows: a report for each descriptor
    that does not pass, and the download of the scripts of those that
    do. *)
Definition stage4_events (isDebug : bool) (l : list App) : list Event :=
  (flat_map (fun app => report_events isDebug (incomplete app))
     (filter (fun app => negb (validated isDebug app)) l)
   ++ [Download (map (_getAppScriptURL isDebug) (filter (validated isDebug) l))])%list.

End Canvas.

(* ================================================================== *)
(** ** Sample pages *)
(* ================================================================== *)

Module Samples.
Import JS.

Definition caller (f : nat) : UserSession.Config :=
  {| UserSession.appkey := VStr "test.echoenabled.com"; UserSession.ready := Some f |}.

Definition no_appkey : UserSession.Config :=
  {| UserSession.appkey := VStr ""; UserSession.ready := Some 0 |}.

Definition page : UserSession.World := UserSession.fresh "https:" (VStr "channel-1").

(** The page after a first call: the session is waiting. *)
Definition waiting_page : UserSession.World :=
  UserSession.step (UserSession.Construct (Some (caller 0))) page.

Definition account (url : string) (nick : value) : value :=
  VObj [("identityUrl", VStr url); ("loggedIn", VStr "true"); ("nick", nick)].

Definition payload (nick : value) : UserSession.Data :=
  {| UserSession.result := VUndefined;
     UserSession.echo := VObj [("roles", VArr [VStr "moderator"])];
     UserSession.poco :=
       VObj [("entry", VObj [("accounts", VArr [account "http://example.com/bob" nick])])];
     UserSession.identities := VUndefined |}.

(** The page once the session is ready, with one identity logged in. *)
Definition ready_page (nick : value) : UserSession.World :=
  UserSession.step (UserSession.Response 0 (payload nick)) waiting_page.

Definition stream : value := VStr "Echo.StreamServer.Controls.Stream".

Definition counter : value := VStr "Echo.StreamServer.Controls.Counter".

Definition descriptor (id component script : value) : Canvas.App :=
  {| Canvas.component := component; Canvas.script := script;
     Canvas.scripts := VUndefined; Canvas.id := id;
     Canvas.caption := VUndefined; Canvas.config := None |}.

(** Three descriptors; the second has no script, and the component
    given. *)
Definition three (second : value) : Canvas.Data :=
  {| Canvas.apps := [descriptor (VStr "a") stream (VStr "stream.js");
                     descriptor (VStr "b") second VUndefined;
                     descriptor (VStr "c") stream (VStr "stream.js")];
     Canvas.backplane := VUndefined |}.

(** A canvas whose target names it, before [init]. *)
Definition canvas (debug : bool) : Canvas.Canvas :=
  Canvas.mkCanvas VUndefined VUndefined None []
    (VStr "canvas-1") (VStr "test.echoenabled.com") VUndefined
    None [] debug None [].

(** What [{}] is normalized to. *)
Definition normalized_empty : UserSession.Data :=
  {| UserSession.result := VUndefined;
     UserSession.echo := VObj [("state", VStr "Untouched"); ("roles", VArr []);
                               ("markers", VArr [])];
     UserSession.poco := VObj [("entry", VObj [])];
     UserSession.identities := VArr [] |}.

(** A canvas given its data, with one descriptor that has no id. *)
Definition manual : Canvas.Canvas :=
  Canvas.mkCanvas VUndefined VUndefined None [] VUndefined VUndefined VUndefined
    (Some {| Canvas.apps := [descriptor VUndefined stream (VStr "stream.js")];
             Canvas.backplane := VUndefined |})
    [] false None [].

(** The canvas whose storage answered with the three descriptors, the
    session ready and the downloads over, [components] being registered
    on the page. *)
Definition bootstrapped (second : value) (components : list string) : Canvas.Canvas :=
  Canvas.step (Canvas.Downloaded components)
    (Canvas.step Canvas.SessionReady
       (Canvas.step (Canvas.ConfigData (Some (three second)))
          (Canvas.init (canvas false)))).

End Samples.

(* ================================================================== *)
(** ** Properties of the session *)
(* ================================================================== *)

Module SessionTheorems.
Import JS UserSession.
Local Open Scope list_scope.

(** *** What a computation leaves alone *)

Section Frames.
Variable R : World -> World -> Prop.
Hypothesis R_refl : forall w, R w w.
Hypothesis R_trans : forall a b c, R a b -> R b c -> R a c.

Lemma keeps_ret A (a : A) : keeps R (ret a).
Proof. intro w. apply R_refl. Qed.

Lemma keeps_throw A : keeps R (@throw A).
Proof. intro w. apply R_refl. Qed.

Lemma keeps_lift A (o : outcome A) : keeps R (lift o).
Proof. intro w. apply R_refl. Qed.

Lemma keeps_read A (f : World -> A) : keeps R (read f).
Proof. intro w. apply R_refl. Qed.

Lemma keeps_modify (f : World -> World) : (forall w, R w (f w)) -> keeps R (modify f).
Proof. intros H w. apply H. Qed.

Lemma keeps_bind A B (m : M A) (k : A -> M B) :
  keeps R m -> (forall a, keeps R (k a)) -> keeps R (bind m k).
Proof.
  intros Hm Hk w. unfold bind. specialize (Hm w).
  destruct (m w) as [[a|] w']; cbn in *; [|exact Hm].
  eapply R_trans; [exact Hm | apply Hk].
Qed.

End Frames.

Lemma same_page_refl w : same_page w w.
Proof. repeat split. Qed.

Lemma same_page_trans a b c : same_page a b -> same_page b c -> same_page a c.
Proof. unfold same_page. intuition congruence. Qed.

Lemma same_page_identity i w : same_page w (set_identity i w).
Proof. repeat split. Qed.

Lemma same_page_data d w : same_page w (set_data d w).
Proof. repeat split. Qed.

Create HintDb store.
#[local] Hint Resolve same_page_refl same_page_trans same_page_identity
  same_page_data : store.
#[local] Hint Resolve keeps_ret keeps_throw keeps_lift keeps_read keeps_modify : store.

Ltac store_cases :=
  repeat match goal with
         | |- same_page _ (snd (match ?x with _ => _ end)) => destruct x
         | |- same_page _ (snd (if ?x then _ else _)) => destruct x
         end;
  cbn; auto with store.

Ltac store_bind :=
  repeat (apply (keeps_bind same_page same_page_trans); [auto with store | intro]);
  auto with store.

Lemma getActiveIdentities_store : keeps same_page _getActiveIdentities.
Proof. intro w. unfold _getActiveIdentities. store_cases. Qed.

Lemma getAvatar_store : keeps same_page _getAvatar.
Proof. intro w. unfold _getAvatar. store_cases. Qed.

Lemma attrLocation_store key : keeps same_page (_attrLocation key).
Proof. intro w. unfold _attrLocation. store_cases. Qed.

#[local] Hint Resolve getActiveIdentities_store getAvatar_store
  attrLocation_store : store.

Lemma get_store key defaults : keeps same_page (get key defaults).
Proof.
  unfold get, get_handler.
  repeat match goal with
         | |- keeps _ (match (if ?x then _ else _) with _ => _ end) => destruct x
         end; auto with store;
    try (intro w; apply same_page_refl).
  unfold get_fallback. store_bind.
Qed.
#[local] Hint Resolve get_store : store.

Lemma is_store key : keeps same_page (is_ key).
Proof.
  unfold is_. destruct (_ =? _); auto with store.
  unfold _isLogged. store_bind.
Qed.

Lemma reset_store payload : keeps same_page (_reset payload).
Proof. unfold _reset. store_bind. Qed.
#[local] Hint Resolve is_store reset_store : store.

Lemma core_eq_refl w : core_eq w w.
Proof. repeat split. Qed.

Lemma core_eq_trans a b c : core_eq a b -> core_eq b c -> core_eq a c.
Proof. unfold core_eq. intuition congruence. Qed.

Lemma same_page_core w w' : same_page w w' -> core_eq w w'.
Proof. unfold same_page, core_eq. intuition congruence. Qed.

Lemma store_core A (m : M A) : keeps same_page m -> keeps core_eq m.
Proof. intros H w. apply same_page_core, H. Qed.

Lemma core_emit es w : core_eq w (emit es w).
Proof. repeat split. Qed.

Lemma core_set_handlers hs n w : core_eq w (set_handlers hs n w).
Proof. repeat split. Qed.

Create HintDb flight.
#[local] Hint Resolve core_eq_refl core_emit core_set_handlers : flight.
#[local] Hint Resolve keeps_ret keeps_throw keeps_lift keeps_read keeps_modify : flight.


Lemma get_core key defaults : keeps core_eq (get key defaults).
Proof. apply store_core, get_store. Qed.

Lemma is_core key : keeps core_eq (is_ key).
Proof. apply store_core, is_store. Qed.

Lemma reset_core payload : keeps core_eq (_reset payload).
Proof. apply store_core, reset_store. Qed.

Lemma call_core callback : keeps core_eq (call callback).
Proof. unfold call. auto with flight. Qed.

Lemma onInit_core callback : keeps core_eq (_onInit callback).
Proof.
  destruct callback; cbn; auto with flight.
  apply (keeps_bind core_eq core_eq_trans); auto with flight.
  intro w. unfold subscribe. cbn. auto with flight.
Qed.

Lemma call_handlers_core hs : keeps core_eq (call_handlers hs).
Proof.
  induction hs as [|h hs IH]; cbn; auto with flight.
  apply (keeps_bind core_eq core_eq_trans); [|intro; exact IH].
  unfold onInit_handler.
  apply (keeps_bind core_eq core_eq_trans); [|intro; apply call_core].
  unfold unsubscribe. auto with flight.
Qed.

Lemma publish_core : keeps core_eq publish_onInit.
Proof.
  unfold publish_onInit.
  apply (keeps_bind core_eq core_eq_trans); [auto with flight|intro].
  apply (keeps_bind core_eq core_eq_trans); [auto with flight|intro].
  apply call_handlers_core.
Qed.

#[local] Hint Resolve get_core is_core reset_core call_core onInit_core
  publish_core : flight.





(** *** The four branches of [_construct], and [_init] *)

Lemma get_activeIdentities defaults :
  get "activeIdentities" defaults = _getActiveIdentities.
Proof. reflexivity. Qed.



Lemma construct_waiting c w :
  truthy (appkey c) = true -> state w = Some Waiting ->
  _construct (Some c) w
  = (Ok TheSession,
     set_handlers (handlers w ++ [(nextHandlerId w, ReadyOf c)]) (S (nextHandlerId w)) w).
Proof.
  intros K S. unfold _construct. rewrite K. cbn [negb].
  unfold bind, read, modify. rewrite S. cbn.
  destruct w; cbn in *; subst; reflexivity.
Qed.

Lemma construct_ready c w :
  truthy (appkey c) = true -> state w = Some Ready ->
  _construct (Some c) w = (Ok TheSession, emit (fire (ReadyOf c)) w).
Proof.
  intros K S. unfold _construct. rewrite K. cbn [negb].
  unfold bind, read, modify. rewrite S. cbn.
  destruct w; cbn in *; subst; reflexivity.
Qed.

(** *** One identity request in flight *)








(** *** Publishing [Echo.UserSession.onInit] *)

Lemma removing_nil hs : removing [] hs = hs.
Proof.
  unfold removing. induction hs as [|h hs IH]; cbn in *; [|rewrite IH]; reflexivity.
Qed.

Lemma removing_cons id ids hs :
  removing ids (filter (fun h => negb (fst h =? id)%nat) hs) = removing (id :: ids) hs.
Proof.
  unfold removing. induction hs as [|h hs IH]; cbn; [reflexivity|].
  destruct (fst h =? id)%nat; cbn; [exact IH|].
  destruct (existsb _ ids); cbn; [exact IH|rewrite IH; reflexivity].
Qed.

Lemma removing_all ids hs :
  (forall h, In h hs -> In (fst h) ids) -> removing ids hs = [].
Proof.
  unfold removing. induction hs as [|h hs IH]; intros H; cbn; [reflexivity|].
  assert (E : existsb (Nat.eqb (fst h)) ids = true).
  { apply existsb_exists. exists (fst h). split; [apply H; left; reflexivity|].
    apply Nat.eqb_refl. }
  rewrite E. cbn. apply IH. intros h' Hh'. apply H. right. exact Hh'.
Qed.

(** The handlers called each leave the bus and run their callback. *)
Lemma call_handlers_spec hs w :
  call_handlers hs w
  = (Ok tt, emit (flat_map fire (map snd hs))
              (set_handlers (removing (map fst hs) (handlers w)) (nextHandlerId w) w)).
Proof.
  revert w. induction hs as [|[id cb] hs IH]; intro w.
  - cbn. rewrite removing_nil. destruct w; unfold emit, set_handlers; cbn.
    rewrite app_nil_r. reflexivity.
  - cbn [call_handlers]. unfold bind, onInit_handler, unsubscribe, call, modify.
    cbn [fst snd]. unfold bind. rewrite IH.
    unfold emit, set_handlers.
    cbn [state data identity config backplaneSubscriptionID protocol channelID
         handlers nextHandlerId pending trace map flat_map fst snd].
    rewrite removing_cons, <- app_assoc. reflexivity.
Qed.

Lemma publish_spec w :
  publish_onInit w
  = (Ok tt, emit (Publish "Echo.UserSession.onInit"
                    :: flat_map fire (map snd (handlers w)))
              (set_handlers [] (nextHandlerId w) w)).
Proof.
  unfold publish_onInit, bind, modify, read. cbn [fst snd].
  rewrite call_handlers_spec.
  unfold emit, set_handlers.
  cbn [state data identity config backplaneSubscriptionID protocol channelID
       handlers nextHandlerId pending trace fst snd].
  rewrite removing_all by (intros h H; apply in_map; exact H).
  rewrite <- app_assoc. reflexivity.
Qed.

(** *** The response of the identity request *)





(** *** Calls made while the session is waiting *)







(** *** The guard of [_construct] *)

(** C10: called with a falsy argument, or with a configuration whose
    [appkey] is missing (or falsy), [Echo.UserSession] returns
    [undefined] and leaves the page as it was: no request, no field of
    the session set, no subscription, no callback run. *)
Theorem construct_without_appkey :
  forall (config : option Config) (w : World),
    match config with
    | None => True
    | Some c => truthy (appkey c) = false
    end ->
    _construct config w = (Ok Undefined, w) /\ step (Construct config) w = w.
Proof.
  intros [c|] w H; unfold step, _construct.
  - rewrite H. split; reflexivity.
  - split; reflexivity.
Qed.

Lemma construct_without_appkey_witness :
  _construct (Some Samples.no_appkey) Samples.page = (Ok Undefined, Samples.page)
  /\ step (Construct (Some Samples.no_appkey)) Samples.page = Samples.page.
Proof.
  apply (construct_without_appkey (Some Samples.no_appkey) Samples.page).
  reflexivity.
Defined.

(** *** [get], [has] and [any] *)

Lemma loose_eq_undefined v : loose_eq v VUndefined = nullish v.
Proof. destruct v; reflexivity. Qed.

(** What the fallback of [get] returns: the defaults when the stored
    value is [undefined] or [null], the stored value otherwise. *)
Lemma get_without_handler key defaults w location :
  get_handler (capitalize key) = None ->
  fst (_attrLocation key w) = Ok location ->
  nullish location = false ->
  get key defaults w
  = (Ok (if nullish (prop location key) then defaults else prop location key), w).
Proof.
  intros H H1 H2. unfold get. rewrite H.
  unfold get_fallback, bind, lift, ret.
  unfold _attrLocation in *.
  destruct (inArray _ _); [destruct (data w); [|discriminate]|];
    cbn in H1; inversion H1; subst;
    unfold get_prop; rewrite H2; rewrite loose_eq_undefined; reflexivity.
Qed.

(** C3 on the code: [false], [0] and the empty collections are returned
    as they are stored and a missing value gives the defaults, but a
    stored [null] gives the defaults too ([value == undefined] holds of
    [null]), against the note of [get] that only [undefined] does. *)
Theorem get_replaces_stored_null :
  get_handler (capitalize "nick") = None
  /\ prop (identity (Samples.ready_page VNull)) "nick" = VNull
  /\ fst (get "nick" (VStr "anonymous") (Samples.ready_page VNull))
     = Ok (VStr "anonymous")
  /\ fst (get "nick" (VStr "anonymous") (Samples.ready_page (VBool false)))
     = Ok (VBool false)
  /\ fst (get "nick" (VStr "anonymous") (Samples.ready_page (VNum 0)))
     = Ok (VNum 0)
  /\ fst (get "nick" (VStr "anonymous") (Samples.ready_page (VArr [])))
     = Ok (VArr [])
  /\ fst (get "nick" (VStr "anonymous") (Samples.ready_page (VObj [])))
     = Ok (VObj [])
  /\ fst (get "surname" (VStr "anonymous") (Samples.ready_page VNull))
     = Ok (VStr "anonymous").
Proof. repeat split. Qed.

(** C4, as the code has it: for every key other than those [has] has a
    delegate for (the name [_hasIdentity]), [has(key, v)] is
    [any(key, [v])]: the same result, and the same page left. *)
Theorem has_is_any_without_delegate :
  forall (key : string) (v : value) (w : World),
    (capitalize key =? "Identity")%string = false ->
    has key v w = any key [v] w.
Proof. intros key v w H. unfold has. rewrite H. reflexivity. Qed.

Lemma has_is_any_without_delegate_witness :
  has "roles" (VStr "moderator") (Samples.ready_page VNull)
  = any "roles" [VStr "moderator"] (Samples.ready_page VNull).
Proof.
  apply (has_is_any_without_delegate "roles" (VStr "moderator")
           (Samples.ready_page VNull)).
  reflexivity.
Defined.

(** C4, as the specification states it, fails for the key ["identity"]:
    [has] goes to [_hasIdentity], which looks the URL up among the
    identities, and [any] to its fallback, which reads the (missing)
    field [identity] of the active identity. *)
Lemma has_identity_is_not_any :
  fst (has "identity" (VStr "http://example.com/bob") (Samples.ready_page VNull))
  = Ok true
  /\ fst (any "identity" [VStr "http://example.com/bob"] (Samples.ready_page VNull))
     = Ok false.
Proof. split; reflexivity. Qed.

End SessionTheorems.

(* ================================================================== *)
(** ** Properties of the canvas *)
(* ================================================================== *)

Module CanvasTheorems.
Import JS Canvas.
Local Open Scope list_scope.

Lemma reports_emit es c :
  reports (emit es c)
  = reports c ++ flat_map (fun e => match e with Logged r => [r] | _ => [] end) es.
Proof. unfold reports. cbn. apply flat_map_app. Qed.

Lemma published_emit es c :
  published (emit es c)
  = published c ++ flat_map (fun e => match e with Published r => [r] | _ => [] end) es.
Proof. unfold published. cbn. apply flat_map_app. Qed.

Lemma requests_emit es c :
  requests (emit es c)
  = requests c ++ filter (fun e => match e with
                                   | Requested _ | SessionCalled _ | Download _ => true
                                   | _ => false
                                   end) es.
Proof. unfold requests. cbn. apply filter_app. Qed.

Lemma emit_emit es es' c : emit es' (emit es c) = emit (es ++ es') c.
Proof. unfold emit. cbn. rewrite app_assoc. reflexivity. Qed.

Lemma emit_nil c : emit [] c = c.
Proof. destruct c. unfold emit. cbn. rewrite app_nil_r. reflexivity. Qed.

(** *** The guard of [init] *)

(** C9: [init] on a target that carries the marker reports
    [canvas_already_initialized] (logged, and published in debug mode)
    and does nothing else: the canvas, its registry and the target are
    as they were, nothing is awaited, and no request of any kind
    leaves. *)
Theorem init_on_initialized_target :
  forall c : Canvas,
    truthy (initialized c) = true ->
    init c = emit (report_events (debug c) already_initialized) c
    /\ reports (init c) = reports c ++ [already_initialized]
    /\ requests (init c) = requests c
    /\ registry (init c) = registry c
    /\ pending (init c) = pending c
    /\ initialized (init c) = initialized c.
Proof.
  intros c H. unfold init. rewrite H.
  change (_error "canvas_already_initialized" None None false c)
    with (emit (report_events (debug c) already_initialized) c).
  rewrite reports_emit, requests_emit.
  repeat split; destruct (debug c); cbn; try reflexivity; apply app_nil_r.
Qed.

Lemma init_on_initialized_target_witness :
  reports (init (init (Samples.canvas true)))
  = reports (init (Samples.canvas true)) ++ [already_initialized]
  /\ requests (init (init (Samples.canvas true)))
     = requests (init (Samples.canvas true)).
Proof.
  pose proof (init_on_initialized_target (init (Samples.canvas true)) eq_refl) as H.
  exact (conj (proj1 (proj2 H)) (proj1 (proj2 (proj2 H)))).
Defined.

(** *** [destroy] *)

Lemma destroy_apps l c :
  fold_left (fun c app => _destroyApp app c) l c = emit (map Destroyed (live l)) c.
Proof.
  revert c. induction l as [|[i|] l IH]; intro c; cbn.
  - symmetry. apply emit_nil.
  - rewrite IH, emit_emit. reflexivity.
  - apply IH.
Qed.

(** C5, as the code has it: [destroy] calls the [destroy] of every
    instance of the registry, in order, and sets the marker of the
    target to [false], so that [init] passes its guard again; the
    registry keeps its entries. *)
Theorem destroy_spec :
  forall c : Canvas,
    trace (destroy c) = trace c ++ map Destroyed (live (registry c))
    /\ initialized (destroy c) = VBool false
    /\ truthy (initialized (destroy c)) = false
    /\ registry (destroy c) = registry c.
Proof.
  intro c. unfold destroy. rewrite destroy_apps. repeat split.
Qed.

(** C5, as the specification states it, fails: after [destroy] the
    registry still holds the instances. *)
Lemma destroy_keeps_registry :
  List.length
    (registry (destroy (Samples.bootstrapped Samples.counter
                          ["Echo.StreamServer.Controls.Stream"%string]))) = 2.
Proof. reflexivity. Qed.

(** *** A failure of the request of the configuration *)

(** C6, as the code has it: when the request of the configuration fails,
    no instance is created and nothing is awaited any more; the failure
    is reported twice, first as [unable_to_retrieve_app_config], then,
    by the callback called without a configuration, as
    [invalid_canvas_config], which is shown in the target.  Each report
    is logged, and published as an event only in debug mode. *)
Theorem config_failure_halts :
  forall c : Canvas,
    pending c = Some AwaitConfig ->
    step ConfigError c
    = emit (report_events (debug c) unable_to_retrieve
            ++ report_events (debug c) no_config) (set_pending None c)
    /\ registry (step ConfigError c) = registry c
    /\ pending (step ConfigError c) = None
    /\ reports (step ConfigError c) = reports c ++ [unable_to_retrieve; no_config]
    /\ published (step ConfigError c)
       = published c ++ (if debug c then [unable_to_retrieve; no_config] else [])
    /\ requests (step ConfigError c) = requests c.
Proof.
  intros c H. unfold step. rewrite H.
  assert (E : onError (set_pending None c)
              = emit (report_events (debug c) unable_to_retrieve
                      ++ report_events (debug c) no_config) (set_pending None c)).
  { unfold onError, config_callback, _error. rewrite emit_emit. reflexivity. }
  rewrite E, reports_emit, published_emit, requests_emit.
  repeat split; destruct (debug c); cbn; try reflexivity; apply app_nil_r.
Qed.

Lemma config_failure_halts_witness :
  reports (step ConfigError (init (Samples.canvas false)))
  = [unable_to_retrieve; no_config]
  /\ registry (step ConfigError (init (Samples.canvas false))) = []
  /\ pending (step ConfigError (init (Samples.canvas false))) = None.
Proof.
  pose proof (config_failure_halts (init (Samples.canvas false)) eq_refl) as H.
  exact (conj (proj1 (proj2 (proj2 (proj2 H))))
           (conj (proj1 (proj2 H)) (proj1 (proj2 (proj2 H))))).
Defined.

(** C6, as the specification states it, fails: the failure is not
    reported by exactly one error event.  In debug mode two events are
    published, the second with another code; otherwise none is. *)
Lemma config_failure_reported_twice :
  published (step ConfigError (init (Samples.canvas true)))
  = [unable_to_retrieve; no_config]
  /\ published (step ConfigError (init (Samples.canvas false))) = []
  /\ reports (step ConfigError (init (Samples.canvas false)))
     = [unable_to_retrieve; no_config].
Proof. repeat split. Qed.

(** *** The resources of the apps *)

Lemma collect_spec isManual l resources c :
  collect isManual l resources c
  = (resources ++ map (_getAppScriptURL (debug c)) (filter (complete (debug c) isManual) l),
     emit (flat_map (fun app => report_events (debug c) (incomplete app))
             (filter (fun app => negb (complete (debug c) isManual app)) l)) c).
Proof.
  revert resources c. induction l as [|app l IH]; intros resources c; cbn.
  - rewrite app_nil_r, emit_nil. reflexivity.
  - destruct (complete (debug c) isManual app); cbn.
    + rewrite IH, <- app_assoc. reflexivity.
    + rewrite IH. unfold _error. rewrite emit_emit. reflexivity.
Qed.

(** [_loadAppResources] runs once the callback of [_fetchConfig] has
    stored the data, given or fetched: by then [_isManuallyConfigured]
    holds. *)
Lemma stored_data_counts_as_manual d c : _isManuallyConfigured (set_data d c) = true.
Proof. reflexivity. Qed.

(** With the data stored, the id of a descriptor plays no part in
    the test. *)
Lemma complete_manual isDebug app : complete isDebug true app = validated isDebug app.
Proof.
  unfold complete, validated.
  destruct (truthy (component app)), (truthy (_getAppScriptURL isDebug app)); reflexivity.
Qed.

Lemma loadAppResources_manual c :
  _isManuallyConfigured c = true ->
  _loadAppResources c
  = set_pending (Some AwaitDownload) (emit (stage4_events (debug c) (data_apps c)) c).
Proof.
  intros M. unfold _loadAppResources. rewrite collect_spec, M.
  rewrite (filter_ext _ _ (complete_manual (debug c))).
  rewrite (filter_ext (fun app => negb (complete (debug c) true app))
             (fun app => negb (validated (debug c) app)))
    by (intro app; rewrite complete_manual; reflexivity).
  cbn [app]. rewrite emit_emit. reflexivity.
Qed.

(** While the session or the downloads are awaited, the data are
    stored. *)
Lemma awaiting_has_data c :
  started c ->
  pending c = Some AwaitSession \/ pending c = Some AwaitDownload ->
  _isManuallyConfigured c = true.
Proof.
  unfold _isManuallyConfigured.
  assert (L : forall c, _isManuallyConfigured c = true ->
                        data (_loadAppResources c) = data c).
  { intros c0 M. rewrite (loadAppResources_manual c0 M). reflexivity. }
  assert (C : forall config c0,
             (data (config_callback config c0) = data c0
              /\ pending (config_callback config c0) = pending c0)
             \/ data (config_callback config c0) <> None).
  { intros [d|] c0; cbn [config_callback]; [|left; split; reflexivity].
    destruct (apps d); [left; split; reflexivity|right].
    unfold _initBackplane, _initUser. cbn [config_user emit set_data].
    destruct (config_user c0);
      [|destruct (negb _)]; unfold user_callback; try (rewrite L by reflexivity);
      discriminate. }
  induction 1 as [c P|c S IH|i c S IH|c S IH]; intros H.
  - rewrite P in H. destruct H; discriminate.
  - unfold init in *. destruct (truthy (initialized c)); [apply IH; exact H|].
    destruct (_ && _); [apply IH; exact H|].
    unfold _fetchConfig, _isManuallyConfigured in *.
    cbn [data set_initialized _getOverrides set_config] in *.
    destruct (data c) as [d|] eqn:D.
    + destruct (C (Some d) (set_initialized (VBool true) (_getOverrides c)))
        as [[E _]|N].
      * rewrite E. cbn. rewrite D. reflexivity.
      * destruct (data (config_callback _ _)); [reflexivity|contradiction].
    + cbn in H. destruct H; discriminate.
  - unfold step in *.
    destruct (pending c) as [[| |]|] eqn:P, i as [cfg| | |components];
      try (apply IH; rewrite P in H; exact H).
    + destruct (C cfg (set_pending None c)) as [[E E']|N].
      * rewrite E' in H. cbn in H. destruct H; discriminate.
      * destruct (data (config_callback _ _)); [reflexivity|contradiction].
    + unfold onError in *.
      destruct (C None (_error "unable_to_retrieve_app_config" None None false
                          (set_pending None c))) as [[E E']|N].
      * rewrite E' in H. cbn in H. destruct H; discriminate.
      * destruct (data (config_callback _ _)); [reflexivity|contradiction].
    + unfold user_callback. rewrite L.
      * cbn. apply IH. left. reflexivity.
      * cbn. apply IH. left. reflexivity.
    + clear H. unfold parent.
      assert (K : forall l p c0, data (container components l p c0) = data c0).
      { induction l as [|a l IHl]; intros p c0; cbn; [reflexivity|].
        rewrite IHl. unfold _initApp. destruct (negb _); reflexivity. }
      rewrite K. cbn. apply IH. right. reflexivity.
  - unfold destroy in *. rewrite destroy_apps in *. cbn in *. apply IH. exact H.
Qed.

(** C7, as the code has it.  The script of a descriptor is the [dev] or
    the [prod] member of [scripts], by the debug flag, when [scripts]
    and both members are there, and [script] otherwise.  A descriptor
    passes when its component is there and this script is there; its id
    plays no part.  The test of [_loadAppResources] has a third
    clause, [isManual || app.id], but the callback of [init] stores the
    data, given or fetched, before [_loadAppResources] reads
    [isManual]: in every run the clause holds.  So both where Stage 4
    is entered (from the callback of [_fetchConfig] when no session has
    to be awaited, and when the awaited session is ready),
    [_loadAppResources] asks for the scripts of the descriptors whose
    component and script are there, in their order, and reports each of
    the others as [incomplete_app_config]. *)
Theorem stage4_validation :
  forall (c : Canvas) (d : Data) (isDebug : bool) (app : App),
    started c ->
    apps d <> [] ->
    _getAppScriptURL isDebug app
    = (if truthy (scripts app) && truthy (prop (scripts app) "dev")
          && truthy (prop (scripts app) "prod")
       then if isDebug then prop (scripts app) "dev" else prop (scripts app) "prod"
       else script app)
    /\ complete isDebug true app
       = truthy (component app) && truthy (_getAppScriptURL isDebug app)
    /\ trace (config_callback (Some d) c)
       = trace c
         ++ BackplaneInit (backplane d)
            :: (if match config_user c with
                   | Some _ => false
                   | None => truthy (config_appkey c)
                   end
                then [SessionCalled (config_appkey c)]
                else stage4_events (debug c) (apps d))
    /\ (pending c = Some AwaitSession ->
        _isManuallyConfigured c = true
        /\ trace (step SessionReady c)
           = trace c ++ stage4_events (debug c) (data_apps c)).
Proof.
  intros c d isDebug app S A. split; [|split; [|split]].
  - unfold _getAppScriptURL. destruct isDebug; reflexivity.
  - apply complete_manual.
  - unfold config_callback. destruct (apps d) as [|a l] eqn:E; [contradiction|].
    unfold _initBackplane, _initUser. cbn [config_user config_appkey emit set_data data].
    destruct (config_user c) as [u|].
    + unfold user_callback. rewrite loadAppResources_manual by reflexivity.
      cbn. rewrite E, <- app_assoc. reflexivity.
    + destruct (truthy (config_appkey c)); cbn [negb].
      * cbn. rewrite <- app_assoc. reflexivity.
      * unfold user_callback. rewrite loadAppResources_manual by reflexivity.
        cbn. rewrite E, <- app_assoc. reflexivity.
  - intros P. pose proof (awaiting_has_data c S (or_introl P)) as M.
    split; [exact M|].
    unfold step. rewrite P. unfold user_callback.
    rewrite loadAppResources_manual by exact M. reflexivity.
Qed.

Lemma started_fetched :
  started (step (ConfigData (Some (Samples.three Samples.stream)))
             (init (Samples.canvas false))).
Proof. apply started_step, started_init, started_new. reflexivity. Qed.

Lemma stage4_validation_witness :
  trace (step SessionReady
           (step (ConfigData (Some (Samples.three Samples.stream)))
              (init (Samples.canvas false))))
  = [Requested (VStr "canvas-1"); BackplaneInit VUndefined;
     SessionCalled (VStr "test.echoenabled.com");
     Logged (incomplete (Samples.descriptor (VStr "b") Samples.stream VUndefined));
     Download [VStr "stream.js"%string; VStr "stream.js"%string]].
Proof.
  refine (eq_trans
            (proj2 (proj2 (proj2 (proj2
               (stage4_validation
                  (step (ConfigData (Some (Samples.three Samples.stream)))
                     (init (Samples.canvas false)))
                  (Samples.three Samples.stream) false
                  (Samples.descriptor (VStr "a") Samples.stream (VStr "stream.js"))
                  started_fetched _)))
               eq_refl))
            eq_refl).
  discriminate.
Defined.

(** C7, as the specification states it, fails on the id.  A descriptor
    with a component and a script but no id passes in the code, in a
    canvas that is given its data as in one that fetches them: in both
    runs [init] (or the answers it awaits) ends with the download of
    its script, and nothing is reported.  By the words of the
    specification it would be rejected in the canvas that is given its
    data (manually configured), where the position is not to serve as
    the id. *)
Lemma descriptor_without_id_passes :
  _isManuallyConfigured Samples.manual = true
  /\ spec_complete false true
       (Samples.descriptor VUndefined Samples.stream (VStr "stream.js"))
     = false
  /\ trace (init Samples.manual)
     = [BackplaneInit VUndefined; Download [VStr "stream.js"%string]]
  /\ trace (step SessionReady
              (step (ConfigData
                       (Some {| apps := [Samples.descriptor VUndefined Samples.stream
                                           (VStr "stream.js")];
                                backplane := VUndefined |}))
                 (init (Samples.canvas false))))
     = [Requested (VStr "canvas-1"); BackplaneInit VUndefined;
        SessionCalled (VStr "test.echoenabled.com");
        Download [VStr "stream.js"%string]].
Proof. repeat split. Qed.

(** *** The instances *)

(** The renderer of the container visits every descriptor, complete or
    not: the registry grows by one instance for each descriptor whose
    component is registered. *)
Lemma container_registry components l position c :
  List.length (registry (container components l position c))
  = List.length (registry c)
    + List.length (filter (fun app => getComponent components (component app)) l).
Proof.
  revert position c. induction l as [|app l IH]; intros position c; cbn.
  - lia.
  - rewrite IH. unfold _initApp.
    destruct (getComponent components (component app)); cbn.
    + rewrite length_app. cbn. lia.
    + lia.
Qed.

(** C8 on the code, with three descriptors of which the second has no
    script.  When the component of the second is registered (here it is
    the component of its siblings), [_loadAppResources] reports it once
    and the renderer of the container creates it all the same: three
    instances.  When it is not, two instances are created and the
    descriptor is reported a second time, as [no_suitable_app_class]. *)
Theorem incomplete_descriptor_is_still_initialized :
  List.length
    (registry (Samples.bootstrapped Samples.stream
                 ["Echo.StreamServer.Controls.Stream"%string])) = 3
  /\ reports (Samples.bootstrapped Samples.stream
                ["Echo.StreamServer.Controls.Stream"%string])
     = [incomplete (Samples.descriptor (VStr "b") Samples.stream VUndefined)]
  /\ List.length
       (registry (Samples.bootstrapped Samples.counter
                    ["Echo.StreamServer.Controls.Stream"%string])) = 2
  /\ reports (Samples.bootstrapped Samples.counter
                ["Echo.StreamServer.Controls.Stream"%string])
     = [incomplete (Samples.descriptor (VStr "b") Samples.counter VUndefined);
        no_class (Samples.descriptor (VStr "b") Samples.counter VUndefined)].
Proof. repeat split. Qed.

End CanvasTheorems.

(* ================================================================== *)
(** ** The session: its store and its life cycle *)
(* ================================================================== *)

Module SessionLifecycle.
Import JS UserSession SessionTheorems.
Local Open Scope list_scope.

(** *** Objects as lists of properties *)

Lemma field_set_field_eq o k v : field (set_field o k v) k = v.
Proof.
  induction o as [|[k' v'] o IH]; cbn.
  - rewrite String.eqb_refl. reflexivity.
  - destruct (k' =? k)%string eqn:E; cbn.
    + rewrite String.eqb_refl. reflexivity.
    + rewrite E. exact IH.
Qed.

Lemma field_set_field_neq o k k' v :
  k <> k' -> field (set_field o k v) k' = field o k'.
Proof.
  intros N. induction o as [|[k0 v0] o IH]; cbn.
  - destruct (k =? k')%string eqn:E; [apply String.eqb_eq in E; contradiction|reflexivity].
  - destruct (k0 =? k)%string eqn:E; cbn.
    + apply String.eqb_eq in E. subst k0.
      destruct (k =? k')%string eqn:E'; [apply String.eqb_eq in E'; contradiction|reflexivity].
    + destruct (k0 =? k')%string; [reflexivity|exact IH].
Qed.

Lemma set_field_field o k :
  In k (map fst o) -> set_field o k (field o k) = o.
Proof.
  induction o as [|[k' v'] o IH]; cbn; [intros []|].
  intros H. destruct (k' =? k)%string eqn:E.
  - apply String.eqb_eq in E. subst. reflexivity.
  - destruct H as [H|H]; [subst; rewrite String.eqb_refl in E; discriminate|].
    rewrite (IH H). reflexivity.
Qed.

Lemma set_field_keys o k v k' :
  In k' (map fst (set_field o k v)) <-> k' = k \/ In k' (map fst o).
Proof.
  induction o as [|[k0 v0] o IH]; cbn.
  - intuition congruence.
  - destruct (k0 =? k)%string eqn:E; cbn.
    + apply String.eqb_eq in E. subst. intuition congruence.
    + rewrite IH. intuition congruence.
Qed.

Lemma truthy_or_else a b : truthy b = true -> truthy (or_else a b) = true.
Proof. intros H. unfold or_else. destruct (truthy a) eqn:E; assumption. Qed.

Lemma or_else_truthy a b : truthy a = true -> or_else a b = a.
Proof. intros H. unfold or_else. rewrite H. reflexivity. Qed.

(** *** [_normalize] *)

Lemma normalize_eq d :
  _normalize d
  = match own_properties (or_else (echo d) (VObj [])) with
    | None => Throw
    | Some _ =>
        match get_prop (prop (or_else (poco d) (VObj [("entry", VObj [])])) "entry")
                "accounts" with
        | Throw => Throw
        | Ok accounts =>
            Ok {| result := result d;
                  echo := VObj (with_defaults (given_echo d));
                  poco := or_else (poco d) (VObj [("entry", VObj [])]);
                  identities := or_else accounts (VArr []) |}
        end
    end.
Proof.
  unfold _normalize, with_defaults, given_echo.
  destruct (own_properties _) as [e|]; [|reflexivity].
  rewrite !field_set_field_neq by discriminate. reflexivity.
Qed.

Lemma with_defaults_state e0 :
  field (with_defaults e0) "state" = or_else (field e0 "state") (VStr "Untouched").
Proof.
  unfold with_defaults. rewrite !field_set_field_neq by discriminate.
  apply field_set_field_eq.
Qed.

Lemma with_defaults_roles e0 :
  field (with_defaults e0) "roles" = or_else (field e0 "roles") (VArr []).
Proof.
  unfold with_defaults. rewrite field_set_field_neq by discriminate.
  apply field_set_field_eq.
Qed.

Lemma with_defaults_markers e0 :
  field (with_defaults e0) "markers" = or_else (field e0 "markers") (VArr []).
Proof. unfold with_defaults. apply field_set_field_eq. Qed.

Lemma with_defaults_other e0 k :
  k <> "state"%string -> k <> "roles"%string -> k <> "markers"%string ->
  field (with_defaults e0) k = field e0 k.
Proof.
  intros. unfold with_defaults. rewrite !field_set_field_neq by congruence. reflexivity.
Qed.

Lemma with_defaults_keys e0 k :
  In k ["state"; "roles"; "markers"]%string -> In k (map fst (with_defaults e0)).
Proof.
  unfold with_defaults. rewrite !set_field_keys. cbn. intuition congruence.
Qed.

Lemma with_defaults_idempotent e0 : with_defaults (with_defaults e0) = with_defaults e0.
Proof.
  set (e := with_defaults e0).
  unfold with_defaults at 1.
  assert (S : or_else (field e "state") (VStr "Untouched") = field e "state").
  { apply or_else_truthy. unfold e. rewrite with_defaults_state.
    apply truthy_or_else. reflexivity. }
  assert (R : or_else (field e "roles") (VArr []) = field e "roles").
  { apply or_else_truthy. unfold e. rewrite with_defaults_roles.
    apply truthy_or_else. reflexivity. }
  assert (M : or_else (field e "markers") (VArr []) = field e "markers").
  { apply or_else_truthy. unfold e. rewrite with_defaults_markers.
    apply truthy_or_else. reflexivity. }
  rewrite S, R, M.
  rewrite (set_field_field e "state") by (apply with_defaults_keys; cbn; auto).
  rewrite (set_field_field e "roles") by (apply with_defaults_keys; cbn; auto).
  apply set_field_field. apply with_defaults_keys; cbn; auto.
Qed.

Lemma normalize_poco payload d : _normalize payload = Ok d -> truthy (poco d) = true.
Proof.
  rewrite normalize_eq. destruct (own_properties _); [|discriminate].
  destruct (get_prop _ "accounts"); [|discriminate].
  intros H. inversion H. cbn. apply truthy_or_else. reflexivity.
Qed.


(** X1: whatever the payload, the data [_normalize] returns have the
    three reserved members of [echo]: each is the one given when that is
    truthy, and otherwise ["Untouched"] for [state] and [[]] for [roles]
    and [markers], so that all three are truthy; the other members of
    [echo] are the ones given.  [poco] is truthy (the one given when
    that is truthy), [identities] is truthy, and [result] is kept. *)
Theorem normalize_fills_reserved_namespace :
  forall d d' : Data,
    _normalize d = Ok d' ->
    exists e,
      echo d' = VObj e
      /\ field e "state" = or_else (field (given_echo d) "state") (VStr "Untouched")
      /\ field e "roles" = or_else (field (given_echo d) "roles") (VArr [])
      /\ field e "markers" = or_else (field (given_echo d) "markers") (VArr [])
      /\ (forall k, k <> "state"%string -> k <> "roles"%string -> k <> "markers"%string ->
                    field e k = field (given_echo d) k)
      /\ truthy (field e "state") && truthy (field e "roles") && truthy (field e "markers")
         = true
      /\ truthy (poco d') = true
      /\ (truthy (poco d) = true -> poco d' = poco d)
      /\ truthy (identities d') = true
      /\ result d' = result d.
Proof.
  intros d d' H. rewrite normalize_eq in H.
  destruct (own_properties _); [|discriminate].
  destruct (get_prop _ "accounts") as [accounts|]; [|discriminate].
  inversion H; subst d'; clear H. cbn.
  exists (with_defaults (given_echo d)). split; [reflexivity|].
  split; [apply with_defaults_state|]. split; [apply with_defaults_roles|].
  split; [apply with_defaults_markers|]. split; [apply with_defaults_other|].
  split.
  { rewrite with_defaults_state, with_defaults_roles, with_defaults_markers,
      !truthy_or_else; reflexivity. }
  split; [apply truthy_or_else; reflexivity|].
  split; [intros T; apply or_else_truthy; exact T|].
  split; [apply truthy_or_else; reflexivity|reflexivity].
Qed.

Lemma normalize_fills_reserved_namespace_witness :
  exists e,
    echo (Samples.normalized_empty) = VObj e
    /\ field e "state" = VStr "Untouched"
    /\ field e "roles" = VArr [] /\ field e "markers" = VArr [].
Proof.
  destruct (normalize_fills_reserved_namespace empty Samples.normalized_empty eq_refl)
    as (e & a & b & c & d & _).
  exists e. repeat split; assumption.
Defined.

(** X2: [_normalize] changes nothing in data it has returned. *)
Theorem normalize_is_idempotent :
  forall d d' : Data, _normalize d = Ok d' -> _normalize d' = Ok d'.
Proof.
  intros d d' H. rewrite normalize_eq in H.
  destruct (own_properties _); [|discriminate].
  destruct (get_prop _ "accounts") as [accounts|] eqn:A; [|discriminate].
  inversion H; subst d'; clear H.
  rewrite normalize_eq. cbn [poco echo result identities or_else truthy own_properties].
  change (given_echo {| result := result d;
                        echo := VObj (with_defaults (given_echo d));
                        poco := or_else (poco d) (VObj [("entry", VObj [])]);
                        identities := or_else accounts (VArr []) |})
    with (with_defaults (given_echo d)).
  rewrite with_defaults_idempotent.
  rewrite (or_else_truthy (or_else (poco d) _)) by (apply truthy_or_else; reflexivity).
  rewrite A. reflexivity.
Qed.

Lemma normalize_is_idempotent_witness :
  _normalize Samples.normalized_empty = Ok Samples.normalized_empty.
Proof. exact (normalize_is_idempotent empty Samples.normalized_empty eq_refl). Defined.

(** X3: [_normalize] throws in two cases and in no other.  Either
    [echo] is a truthy primitive ([true], a number other than 0, a
    string other than the empty one): the file is in strict mode, and
    the assignment to [data.echo.state] throws.  Or [poco] is given
    (truthy) and has no [entry] ([undefined] or [null]):
    [data.poco.entry.accounts] is then read from nothing.  A payload
    whose [echo] is missing, an object or an array, and that has no
    [poco], never makes it throw. *)
Theorem normalize_throws_without_entry :
  forall d : Data,
    _normalize d = Throw
    <-> (truthy (echo d) = true /\ own_properties (echo d) = None)
        \/ (truthy (poco d) = true /\ nullish (prop (poco d) "entry") = true).
Proof.
  intro d. rewrite normalize_eq.
  assert (E : own_properties (or_else (echo d) (VObj [])) = None
              <-> truthy (echo d) = true /\ own_properties (echo d) = None).
  { unfold or_else. destruct (truthy (echo d)); cbn; intuition congruence. }
  assert (P : get_prop (prop (or_else (poco d) (VObj [("entry", VObj [])])) "entry")
                "accounts" = Throw
              <-> truthy (poco d) = true /\ nullish (prop (poco d) "entry") = true).
  { unfold get_prop, or_else. destruct (truthy (poco d)); cbn.
    - destruct (nullish (prop (poco d) "entry")); intuition congruence.
    - intuition congruence. }
  destruct (own_properties (or_else (echo d) (VObj []))) as [e|].
  - destruct (get_prop _ "accounts") as [accounts|].
    + split; [discriminate|]. intros [H|H].
      * apply E in H. discriminate.
      * apply P in H. discriminate.
    + split; [|reflexivity]. intros _. right. apply P. reflexivity.
  - split; [|reflexivity]. intros _. left. apply E. reflexivity.
Qed.

(** *** The store after a response *)

Lemma first_of_array l :
  (if truthy (VArr l) && truthy (prop (VArr l) "length") then prop (VArr l) "0" else VObj [])
  = hd (VObj []) l.
Proof. destruct l as [|x l]; reflexivity. Qed.

(** [_reset], when nothing throws. *)
Lemma reset_eq payload d l w :
  _normalize payload = Ok d ->
  active_accounts d = Ok l ->
  _reset payload w = (Ok tt, set_identity (hd (VObj []) l) (set_data d w)).
Proof.
  intros N A. unfold _reset. rewrite get_activeIdentities, N.
  unfold bind, lift, modify. cbn [fst snd].
  unfold _getActiveIdentities. cbn [data identity set_identity set_data].
  rewrite (normalize_poco payload d N). unfold active_accounts in A. cbn [negb orb].
  destruct (truthy (prop (poco d) "entry")); cbn [negb].
  - cbn [truthy andb prop field]. rewrite A. cbn [set_prop].
    rewrite first_of_array. reflexivity.
  - inversion A; subst. reflexivity.
Qed.

(** The response handler of [_init], when nothing throws. *)
Lemma response_eq callback payload d l w :
  _normalize (if not_found payload then empty else payload) = Ok d ->
  active_accounts d = Ok l ->
  whoami_response callback payload w
  = (Ok tt, emit (Publish "Echo.UserSession.onInit"
                    :: flat_map fire (map snd (handlers w)) ++ fire callback)
              (set_handlers [] (nextHandlerId w)
                 (set_identity (hd (VObj []) l) (set_data d (set_state Ready w))))).
Proof.
  intros N A. unfold whoami_response. fold (not_found payload).
  unfold bind at 1. unfold modify at 1.
  unfold bind at 1. rewrite (reset_eq _ d l _ N A).
  unfold bind. rewrite publish_spec. unfold call, modify, emit, set_handlers.
  cbn. rewrite <- app_assoc. reflexivity.
Qed.

(** X4: when the response of the identity request has been handled (its
    payload not being a [session_not_found], and nothing having
    thrown), [user.data] is the normalized payload, [user.identity] is
    the first account of [poco.entry.accounts] whose [loggedIn] is
    ["true"], or [{}] when there is none, and the state is ["ready"]. *)
Theorem response_sets_store :
  forall (callback : Callback) (payload d : Data) (l : list value) (w : World),
    not_found payload = false ->
    _normalize payload = Ok d ->
    active_accounts d = Ok l ->
    data (snd (whoami_response callback payload w)) = Some d
    /\ identity (snd (whoami_response callback payload w)) = hd (VObj []) l
    /\ state (snd (whoami_response callback payload w)) = Some Ready.
Proof.
  intros callback payload d l w NF N A.
  rewrite (response_eq callback payload d l w); [repeat split| |exact A].
  rewrite NF. exact N.
Qed.

Lemma response_sets_store_witness :
  identity (snd (whoami_response (Fn 0) (Samples.payload VNull) Samples.waiting_page))
  = Samples.account "http://example.com/bob" VNull
  /\ state (snd (whoami_response (Fn 0) (Samples.payload VNull) Samples.waiting_page))
     = Some Ready.
Proof.
  exact (proj2 (response_sets_store (Fn 0) (Samples.payload VNull) _
                  [Samples.account "http://example.com/bob" VNull]
                  Samples.waiting_page eq_refl eq_refl eq_refl)).
Defined.

(** X5: a response whose [result] is ["session_not_found"] is handled as
    the empty payload, whatever else it carries: the handler runs to its
    end, [user.data] is what [{}] normalizes to, [user.identity] is
    [{}], and [is("logged")] is false. *)
Theorem session_not_found_logs_out :
  forall (callback : Callback) (payload : Data) (w : World),
    not_found payload = true ->
    data (snd (whoami_response callback payload w)) = Some Samples.normalized_empty
    /\ identity (snd (whoami_response callback payload w)) = VObj []
    /\ fst (whoami_response callback payload w) = Ok tt
    /\ fst (is_ "logged" (snd (whoami_response callback payload w))) = Ok (VBool false).
Proof.
  intros callback payload w NF.
  rewrite (response_eq callback payload Samples.normalized_empty [] w);
    [|rewrite NF; reflexivity|reflexivity].
  repeat split.
Qed.

Lemma session_not_found_logs_out_witness :
  fst (is_ "logged"
         (snd (whoami_response (Fn 0)
                 {| result := VStr "session_not_found"; echo := VUndefined;
                    poco := Samples.account "http://example.com/bob" VNull;
                    identities := VUndefined |}
                 (Samples.ready_page VNull))))
  = Ok (VBool false).
Proof.
  exact (proj2 (proj2 (proj2
    (session_not_found_logs_out (Fn 0)
       {| result := VStr "session_not_found"; echo := VUndefined;
          poco := Samples.account "http://example.com/bob" VNull;
          identities := VUndefined |}
       (Samples.ready_page VNull) eq_refl)))).
Defined.



(** *** [is("logged")] and the cache of the active identities *)




(** X8: the list of the active identities is computed once and kept
    on the active identity.  On a session whose data have [poco.entry]
    and whose identity is there, when [get("activeIdentities")] has
    returned a list, that list is the member [activeIdentities] of
    [user.identity]; and any later call returns it from there without
    looking at the accounts again: it returns the same list, and
    changes nothing, whatever [user.data] holds by then (as long as it
    has [poco.entry]) and whatever defaults either call is given. *)
Theorem active_identities_are_cached :
  forall (defaults defaults' v : value) (d d' : Data) (w : World),
    fst (get "activeIdentities" defaults w) = Ok v ->
    truthy (identity w) = true ->
    data w = Some d ->
    truthy (poco d) && truthy (prop (poco d) "entry") = true ->
    truthy (poco d') && truthy (prop (poco d') "entry") = true ->
    prop (identity (snd (get "activeIdentities" defaults w))) "activeIdentities" = v
    /\ truthy v = true
    /\ get "activeIdentities" defaults'
         (set_data d' (snd (get "activeIdentities" defaults w)))
       = (Ok v, set_data d' (snd (get "activeIdentities" defaults w))).
Proof.
  intros defaults defaults' v d d' w H T D G G'. rewrite !get_activeIdentities in *.
  apply andb_prop in G. destruct G as [G1 G2].
  apply andb_prop in G'. destruct G' as [G1' G2'].
  assert (K : forall w1,
             truthy (identity w1) = true ->
             prop (identity w1) "activeIdentities" = v ->
             truthy v = true ->
             _getActiveIdentities (set_data d' w1) = (Ok v, set_data d' w1)).
  { intros w1 T1 P1 V1. unfold _getActiveIdentities.
    cbn [data identity set_data]. rewrite G1', G2'. cbn [negb orb].
    rewrite T1, P1, V1. reflexivity. }
  unfold _getActiveIdentities in H |- *. rewrite D, G1, G2, T in *. cbn [negb orb andb] in *.
  destruct (truthy (prop (identity w) "activeIdentities")) eqn:C.
  - cbn in H. inversion H; subst v. cbn [snd].
    split; [reflexivity|]. split; [exact C|]. apply K; [exact T|reflexivity|exact C].
  - destruct (logged_in _) as [l|]; [|discriminate].
    destruct (identity w) as [| | | | | |o] eqn:I; try discriminate.
    cbn in H. inversion H; subst v. cbn [set_prop snd identity set_identity prop].
    rewrite field_set_field_eq. split; [reflexivity|]. split; [reflexivity|].
    apply K; [reflexivity| |reflexivity].
    cbn [identity set_identity prop]. apply field_set_field_eq.
Qed.

Lemma active_identities_are_cached_witness :
  fst (get "activeIdentities" VNull
         (set_data Samples.normalized_empty
            (snd (get "activeIdentities" VUndefined (Samples.ready_page VNull)))))
  = Ok (VArr [Samples.account "http://example.com/bob" VNull]).
Proof.
  exact (f_equal fst
           (proj2 (proj2
              (active_identities_are_cached VUndefined VNull
                 (VArr [Samples.account "http://example.com/bob" VNull])
                 _ Samples.normalized_empty
                 (Samples.ready_page VNull) eq_refl eq_refl eq_refl eq_refl eq_refl)))).
Defined.

(** *** Reads leave the page alone *)

Lemma same_but_identity_refl w : same_but_identity w w.
Proof. split; [apply same_page_refl|reflexivity]. Qed.

Lemma same_but_identity_trans a b c :
  same_but_identity a b -> same_but_identity b c -> same_but_identity a c.
Proof.
  intros [P D] [P' D']. split; [eapply same_page_trans; eassumption|congruence].
Qed.

Lemma same_but_identity_set i w : same_but_identity w (set_identity i w).
Proof. split; [apply same_page_identity|reflexivity]. Qed.

Create HintDb reads.
#[local] Hint Resolve same_but_identity_refl same_but_identity_set : reads.
#[local] Hint Resolve keeps_ret keeps_throw keeps_lift keeps_read keeps_modify : reads.

Ltac reads_cases :=
  repeat match goal with
         | |- same_but_identity _ (snd (match ?x with _ => _ end)) => destruct x
         | |- same_but_identity _ (snd (if ?x then _ else _)) => destruct x
         end;
  cbn; auto with reads.

Ltac reads_bind :=
  repeat (apply (keeps_bind same_but_identity same_but_identity_trans);
          [auto with reads | intro]);
  auto with reads.

Lemma getActiveIdentities_reads : keeps same_but_identity _getActiveIdentities.
Proof. intro w. unfold _getActiveIdentities. reads_cases. Qed.

Lemma getAvatar_reads : keeps same_but_identity _getAvatar.
Proof. intro w. unfold _getAvatar. reads_cases. Qed.

Lemma attrLocation_reads key : keeps same_but_identity (_attrLocation key).
Proof. intro w. unfold _attrLocation. reads_cases. Qed.

#[local] Hint Resolve getActiveIdentities_reads getAvatar_reads attrLocation_reads : reads.

Lemma get_reads key defaults : keeps same_but_identity (get key defaults).
Proof.
  unfold get, get_handler.
  repeat match goal with
         | |- keeps _ (match (if ?x then _ else _) with _ => _ end) => destruct x
         end; auto with reads;
    try (intro w; apply same_but_identity_refl).
  unfold get_fallback. reads_bind.
Qed.
#[local] Hint Resolve get_reads : reads.

Lemma is_reads key : keeps same_but_identity (is_ key).
Proof.
  unfold is_. destruct (_ =? _)%string; auto with reads.
  unfold _isLogged. reads_bind.
Qed.

Lemma any_each_reads key values : keeps same_but_identity (any_each key values).
Proof.
  induction values as [|value rest IH]; cbn [any_each]; auto with reads.
  apply (keeps_bind same_but_identity same_but_identity_trans); [auto with reads|intro d].
  destruct (_ || _); auto with reads.
Qed.

Lemma any_fallback_reads key values : keeps same_but_identity (any_fallback key values).
Proof.
  intro w. unfold any_fallback. destruct (negb _); [apply same_but_identity_refl|].
  apply any_each_reads.
Qed.

Lemma any_reads key values : keeps same_but_identity (any key values).
Proof.
  unfold any. repeat destruct (_ =? _)%string; apply any_fallback_reads.
Qed.

Lemma has_reads key value : keeps same_but_identity (has key value).
Proof.
  unfold has. destruct (_ =? _)%string; [|apply any_reads].
  intro w. unfold _hasIdentity. destruct (data w); apply same_but_identity_refl.
Qed.

(** X9: [get], [is], [has] and [any] read.  Whatever the key and the
    arguments, and whether they return or throw, they send nothing,
    publish nothing and call no function of a caller: the state, the
    configuration, the subscription to Backplane, the handlers on the
    bus, the requests in flight and everything observed so far are as
    they were.  (What they may write are the caches [activeIdentities]
    and [avatar], kept on the active identity.) *)
Theorem reads_leave_the_page :
  forall (key : string) (defaults value : value) (values : list JS.value) (w : World),
    same_page w (snd (get key defaults w))
    /\ same_page w (snd (is_ key w))
    /\ same_page w (snd (has key value w))
    /\ same_page w (snd (any key values w)).
Proof.
  intros. split; [apply get_reads|]. split; [apply is_reads|].
  split; [apply has_reads|apply any_reads].
Qed.

(** *** [logout] *)

Lemma same_page_overwritten w w' d i :
  same_page w w' -> set_identity i (set_data d w') = set_identity i (set_data d w).
Proof.
  intros (a & b & c & e & f & g & h & j & k).
  destruct w, w'; cbn in *; subst. reflexivity.
Qed.

Lemma emit_nothing w : emit [] w = w.
Proof. destruct w; unfold emit; cbn. rewrite app_nil_r. reflexivity. Qed.

(** X10: [logout] by a user who is not logged in sends no request: at
    once, [user.data] is what [{}] normalizes to, [user.identity] is
    [{}], and the callback, when there is one, has been called.
    Nothing else of the page changes. *)
Theorem logout_when_not_logged :
  forall (callback : option nat) (w : World),
    fst (is_ "logged" w) = Ok (VBool false) ->
    logout callback w
    = (Ok tt, emit (callback_events callback)
                (set_identity (VObj []) (set_data Samples.normalized_empty w))).
Proof.
  intros callback w H. unfold logout, bind.
  pose proof (is_reads "logged" w) as [F _].
  destruct (is_ "logged" w) as [[logged|] w']; cbn in H; [|discriminate].
  inversion H; subst logged. cbn [truthy negb snd] in *.
  rewrite (reset_eq empty Samples.normalized_empty [] w') by reflexivity.
  cbn [hd]. rewrite (same_page_overwritten w w' _ _ F).
  destruct callback; cbn; [reflexivity|].
  rewrite emit_nothing; reflexivity.
Qed.

Lemma logout_when_not_logged_witness :
  trace (snd (logout (Some 5) (step (Response 0 empty) Samples.waiting_page)))
  = trace (step (Response 0 empty) Samples.waiting_page) ++ [Call 5].
Proof.
  exact (f_equal (fun r => trace (snd r))
           (logout_when_not_logged (Some 5) (step (Response 0 empty) Samples.waiting_page)
              eq_refl)).
Defined.







(** *** [set] and [get] *)



(** X13: [set("name", v)] goes to [_setName], which is handed the
    array of the arguments: [displayName] becomes the array [[v]], and
    that array is what [get("name")] returns afterwards. *)
Theorem set_name_stores_an_array :
  forall (key : string) (v defaults : value) (w w' : World),
    capitalize key = "Name"%string ->
    set key v w = (Ok tt, w') ->
    get key defaults w' = (Ok (VArr [v]), w')
    /\ prop (identity w') "displayName" = VArr [v].
Proof.
  intros key v defaults w w' N S. unfold set, get in *. rewrite N in *.
  cbn [String.eqb Ascii.eqb Bool.eqb get_handler] in *.
  unfold _setName in S.
  destruct (identity w) as [| | | | | |o] eqn:I; try discriminate.
  cbn in S. inversion S; subst w'.
  unfold _getName. cbn [identity set_identity truthy prop].
  rewrite field_set_field_eq. split; reflexivity.
Qed.

Lemma set_name_stores_an_array_witness :
  fst (get "name" VUndefined (snd (set "name" (VStr "Bob") (Samples.ready_page VNull))))
  = Ok (VArr [VStr "Bob"]).
Proof.
  exact (f_equal fst
           (proj1 (set_name_stores_an_array "name" (VStr "Bob") VUndefined
                     (Samples.ready_page VNull) _ eq_refl eq_refl))).
Defined.



(** *** Every page that can be reached *)

Lemma same_setup_refl w : same_setup w w.
Proof. unfold same_setup. repeat split; auto. Qed.

Lemma same_setup_trans a b c : same_setup a b -> same_setup b c -> same_setup a c.
Proof.
  unfold same_setup. intros (a1 & a2 & a3 & a4 & a5) (b1 & b2 & b3 & b4 & b5).
  repeat split; try congruence; [auto|].
  destruct b5 as [E|[E|E]]; [rewrite E; exact a5|auto|auto].
Qed.

Lemma reads_setup w w' : same_but_identity w w' -> same_setup w w'.
Proof.
  intros [(a & b & c & d & e & f & g & h & i) D]. unfold same_setup, subscriptions.
  rewrite b, c, i, D. repeat split; auto.
Qed.

Lemma keeps_reads_setup A (m : M A) : keeps same_but_identity m -> keeps same_setup m.
Proof. intros H w. apply reads_setup, H. Qed.

Lemma setup_emit es w : filter is_subscribe es = [] -> same_setup w (emit es w).
Proof.
  intros H. unfold same_setup, subscriptions. cbn. rewrite filter_app, H, app_nil_r.
  repeat split; auto.
Qed.

Lemma setup_handlers hs n w : same_setup w (set_handlers hs n w).
Proof. unfold same_setup. cbn. repeat split; auto. Qed.

Lemma setup_pending rs w : same_setup w (set_pending rs w).
Proof. unfold same_setup. cbn. repeat split; auto. Qed.

Lemma setup_identity i w : same_setup w (set_identity i w).
Proof. unfold same_setup. cbn. repeat split; auto. Qed.

Lemma setup_data d w : same_setup w (set_data d w).
Proof. unfold same_setup. cbn. repeat split; auto. discriminate. Qed.

Lemma setup_waiting w : same_setup w (set_state Waiting w).
Proof. unfold same_setup. cbn. repeat split; auto. Qed.

Lemma setup_ready w : same_setup w (set_state Ready w).
Proof. unfold same_setup. cbn. repeat split; auto. Qed.

Lemma fire_subscribes_nothing callback : filter is_subscribe (fire callback) = [].
Proof. destruct callback as [c| |f]; cbn; [destruct (ready c)| |]; reflexivity. Qed.

Create HintDb setup.
#[local] Hint Resolve same_setup_refl setup_emit setup_handlers setup_pending setup_identity
  setup_data setup_waiting setup_ready fire_subscribes_nothing : setup.
#[local] Hint Resolve keeps_ret keeps_throw keeps_lift keeps_read keeps_modify : setup.

Ltac setup_bind :=
  repeat (apply (keeps_bind same_setup same_setup_trans); [auto with setup | intro]);
  auto with setup.

Lemma get_setup key defaults : keeps same_setup (get key defaults).
Proof. apply keeps_reads_setup, get_reads. Qed.

Lemma is_setup key : keeps same_setup (is_ key).
Proof. apply keeps_reads_setup, is_reads. Qed.

#[local] Hint Resolve get_setup is_setup : setup.

Lemma reset_setup payload : keeps same_setup (_reset payload).
Proof. unfold _reset. setup_bind. Qed.

Lemma call_setup callback : keeps same_setup (call callback).
Proof. unfold call. auto with setup. Qed.

Lemma onInit_setup callback : keeps same_setup (_onInit callback).
Proof.
  destruct callback; cbn; auto with setup.
  apply (keeps_bind same_setup same_setup_trans); auto with setup.
  intro w. unfold subscribe. cbn. auto with setup.
Qed.

Lemma call_handlers_setup hs : keeps same_setup (call_handlers hs).
Proof.
  induction hs as [|h hs IH]; cbn; auto with setup.
  apply (keeps_bind same_setup same_setup_trans); [|intro; exact IH].
  unfold onInit_handler.
  apply (keeps_bind same_setup same_setup_trans); [|intro; apply call_setup].
  unfold unsubscribe. auto with setup.
Qed.

#[local] Hint Resolve reset_setup call_setup onInit_setup call_handlers_setup : setup.

Lemma publish_setup : keeps same_setup publish_onInit.
Proof. unfold publish_onInit. setup_bind. Qed.

Lemma config_setup :
  keeps same_setup (fun w => match config w with
                             | Some c => (Ok c, w)
                             | None => (Throw, w)
                             end).
Proof. intro w. destruct (config w); apply same_setup_refl. Qed.

Lemma apiRequest_setup endpoint params r : keeps same_setup (_apiRequest endpoint params r).
Proof.
  unfold _apiRequest. apply keeps_modify. intro w.
  eapply same_setup_trans;
    [apply (setup_emit [Get endpoint params]); reflexivity|apply setup_pending].
Qed.

#[local] Hint Resolve publish_setup config_setup apiRequest_setup : setup.

Lemma init_setup callback : keeps same_setup (_init callback).
Proof. unfold _init. setup_bind. Qed.

Lemma logout_setup callback : keeps same_setup (logout callback).
Proof.
  unfold logout.
  apply (keeps_bind same_setup same_setup_trans); [auto with setup|intro logged].
  destruct (negb (truthy logged)); [|setup_bind].
  apply (keeps_bind same_setup same_setup_trans); [auto with setup|intro].
  destruct callback; auto with setup.
Qed.

Lemma logout_response_setup callback : keeps same_setup (logout_response callback).
Proof. unfold logout_response. setup_bind. Qed.

Lemma whoami_response_setup callback payload :
  keeps same_setup (whoami_response callback payload).
Proof. unfold whoami_response. setup_bind. Qed.

Lemma on_message_setup type : keeps same_setup (on_message type).
Proof. unfold on_message. destruct (negb _); [auto with setup|apply init_setup]. Qed.

(** Once the session is constructed, no turn touches its set-up. *)
Lemma step_setup a w : constructed w -> same_setup w (step a w).
Proof.
  intros (S & B & C & D & St). destruct a as [[c|]|callback|i payload|type]; cbn [step].
  - destruct (truthy (appkey c)) eqn:K;
      [|unfold _construct; rewrite K; apply same_setup_refl].
    destruct St as [St|St].
    + rewrite (construct_waiting c w K St). apply setup_handlers.
    + rewrite (construct_ready c w K St). apply setup_emit, fire_subscribes_nothing.
  - apply same_setup_refl.
  - apply logout_setup.
  - destruct (nth_error (pending w) i) as [[params callback|params callback]|];
      [| |apply same_setup_refl].
    + eapply same_setup_trans; [apply setup_pending|apply whoami_response_setup].
    + eapply same_setup_trans; [apply setup_pending|apply logout_response_setup].
  - destruct (backplaneSubscriptionID w); [apply on_message_setup|apply same_setup_refl].
Qed.

Lemma constructed_setup w w' : same_setup w w' -> constructed w -> constructed w'.
Proof.
  intros (a & b & c & d & e) (S & B & C & D & St). unfold constructed.
  rewrite a, b, c. repeat split; auto.
  destruct e as [e|[e|e]]; rewrite e; auto.
Qed.

(** Before the first call with an appkey nothing happens. *)
Lemma step_fresh a p ch :
  step a (fresh p ch) = fresh p ch \/ constructed (step a (fresh p ch)).
Proof.
  destruct a as [[c|]|callback|i payload|type]; cbn [step]; try (left; reflexivity).
  - unfold _construct. destruct (truthy (appkey c)); [right|left; reflexivity].
    cbn. unfold constructed. cbn. repeat split; auto; discriminate.
  - left. destruct i; reflexivity.
Qed.

Lemma reachable_cases w :
  reachable w -> (exists p ch, w = fresh p ch) \/ constructed w.
Proof.
  induction 1 as [p ch|a w R [(p & ch & E)|C]].
  - left. eauto.
  - subst w. destruct (step_fresh a p ch) as [E|C]; [left; rewrite E; eauto|right; exact C].
  - right. eapply constructed_setup; [apply step_setup; exact C|exact C].
Qed.

(** X15: whatever calls, logouts, responses and messages of Backplane
    happen, and in whatever order, the page is either as it was before
    the first call (nothing has happened yet), or the session is
    constructed: Backplane has been subscribed to exactly once, the
    subscription and the configuration are kept, [user.data] is defined,
    and the state is ["waiting"] or ["ready"]; at the end of a turn it
    is never ["init"]. *)
Theorem backplane_subscribed_once :
  forall w : World,
    reachable w ->
    (exists protocol channelID, w = fresh protocol channelID)
    \/ (subscriptions w = 1
        /\ backplaneSubscriptionID w <> None
        /\ config w <> None
        /\ data w <> None
        /\ (state w = Some Waiting \/ state w = Some Ready)).
Proof. exact reachable_cases. Qed.

Lemma backplane_subscribed_once_witness :
  (exists protocol channelID, Samples.waiting_page = fresh protocol channelID)
  \/ (subscriptions Samples.waiting_page = 1
      /\ backplaneSubscriptionID Samples.waiting_page <> None
      /\ config Samples.waiting_page <> None
      /\ data Samples.waiting_page <> None
      /\ (state Samples.waiting_page = Some Waiting
          \/ state Samples.waiting_page = Some Ready)).
Proof.
  exact (backplane_subscribed_once Samples.waiting_page
           (reachable_step (Construct (Some (Samples.caller 0))) Samples.page
              (reachable_fresh "https:" (VStr "channel-1")))).
Defined.

(** X16: the configuration of the first call is the configuration of
    the session for good: no later turn, and no later call with another
    appkey, replaces it. *)
Theorem first_configuration_is_kept :
  forall (w : World) (a : Action) (c : Config),
    reachable w -> config w = Some c -> config (step a w) = Some c.
Proof.
  intros w a c R C. destruct (reachable_cases w R) as [(p & ch & E)|K].
  - subst w. discriminate.
  - destruct (step_setup a w K) as (E & _). congruence.
Qed.

Lemma first_configuration_is_kept_witness :
  config (step (Construct (Some {| appkey := VStr "another.appkey"; ready := None |}))
            Samples.waiting_page)
  = Some (Samples.caller 0).
Proof.
  exact (first_configuration_is_kept Samples.waiting_page
           (Construct (Some {| appkey := VStr "another.appkey"; ready := None |}))
           (Samples.caller 0)
           (reachable_step (Construct (Some (Samples.caller 0))) Samples.page
              (reachable_fresh "https:" (VStr "channel-1")))
           eq_refl).
Defined.

End SessionLifecycle.

(* ================================================================== *)
(** ** The canvas: what the pipeline keeps *)
(* ================================================================== *)

Module CanvasLifecycle.
Import JS Canvas CanvasTheorems.
Local Open Scope list_scope.

(** *** What every stage does to a canvas *)

Lemma extends_refl c : extends c c.
Proof.
  repeat split; exists []; cbn; split;
    try (destruct (debug c)); rewrite ?app_nil_r; reflexivity.
Qed.

Lemma extends_trans a b c : extends a b -> extends b c -> extends a c.
Proof.
  intros (d1 & i1 & (l1 & r1 & c1) & (rs1 & p1 & q1))
         (d2 & i2 & (l2 & r2 & c2) & (rs2 & p2 & q2)).
  repeat split; try congruence.
  - exists (l1 ++ l2). rewrite r2, r1, c2, c1, map_app, <- !app_assoc. split; reflexivity.
  - exists (rs1 ++ rs2). rewrite p2, p1, q2, q1, d1, <- !app_assoc. split; [reflexivity|].
    destruct (debug a); rewrite ?app_nil_r; reflexivity.
Qed.

Lemma extends_error code message about render c :
  extends c (_error code message about render c).
Proof.
  unfold _error, extends, reports, published, created, report_events. cbn.
  repeat split.
  - exists []. rewrite flat_map_app, !app_nil_r. split; [reflexivity|].
    destruct (debug c), render; cbn; rewrite app_nil_r; reflexivity.
  - eexists. rewrite !flat_map_app. split.
    + destruct (debug c), render; cbn; reflexivity.
    + destruct (debug c), render; cbn; rewrite ?app_nil_r; reflexivity.
Qed.

Lemma extends_event e c :
  match e with Published _ | Logged _ | Created _ => False | _ => True end ->
  extends c (emit [e] c).
Proof.
  intros H. unfold extends, reports, published, created. cbn.
  rewrite !flat_map_app. repeat split.
  - exists []. rewrite !app_nil_r. split; [reflexivity|].
    destruct e; try contradiction; cbn; rewrite app_nil_r; reflexivity.
  - exists []. split; destruct e; try contradiction; cbn; destruct (debug c); reflexivity.
Qed.

Lemma extends_created i c : extends c (push i (emit [Created i] c)).
Proof.
  unfold extends, reports, published, created. cbn.
  rewrite !flat_map_app. repeat split.
  - exists [i]. split; reflexivity.
  - exists []. cbn. destruct (debug c); split; reflexivity.
Qed.

Lemma extends_pending p c : extends c (set_pending p c).
Proof. apply (extends_trans _ c); [apply extends_refl|]. exact (extends_refl c). Qed.

Lemma extends_user u c : extends c (set_user u c).
Proof. exact (extends_refl c). Qed.

Lemma extends_data d c : extends c (set_data d c).
Proof. exact (extends_refl c). Qed.

Lemma extends_collect isManual l resources c :
  extends c (snd (collect isManual l resources c)).
Proof.
  revert resources c. induction l as [|app l IH]; intros resources c; cbn.
  - apply extends_refl.
  - destruct (complete (debug c) isManual app); [apply IH|].
    eapply extends_trans; [apply extends_error|apply IH].
Qed.

Lemma extends_loadAppResources c : extends c (_loadAppResources c).
Proof.
  unfold _loadAppResources.
  pose proof (extends_collect (_isManuallyConfigured c) (data_apps c) [] c) as H.
  destruct (collect _ _ _ _) as [resources c']. cbn in H.
  eapply extends_trans; [exact H|].
  eapply extends_trans; [apply (extends_event (Download resources)); exact I|].
  apply extends_pending.
Qed.

Lemma extends_initApp components app position c :
  extends c (_initApp components app position c).
Proof.
  unfold _initApp. destruct (negb _); [apply extends_error|apply extends_created].
Qed.

Lemma extends_container components l position c :
  extends c (container components l position c).
Proof.
  revert position c. induction l as [|app l IH]; intros position c; cbn.
  - apply extends_refl.
  - eapply extends_trans; [apply extends_initApp|apply IH].
Qed.

Lemma extends_user_callback u c : extends c (user_callback u c).
Proof.
  unfold user_callback.
  eapply extends_trans; [apply (extends_user u)|apply extends_loadAppResources].
Qed.

Lemma extends_initUser c : extends c (_initUser c).
Proof.
  unfold _initUser. destruct (config_user c); [apply extends_user_callback|].
  destruct (negb _); [apply extends_user_callback|].
  eapply extends_trans; [|apply extends_pending].
  apply extends_event. exact I.
Qed.

Lemma extends_initBackplane c : extends c (_initBackplane c).
Proof.
  unfold _initBackplane.
  eapply extends_trans; [|apply extends_initUser].
  apply extends_event. exact I.
Qed.

Lemma extends_config_callback config c : extends c (config_callback config c).
Proof.
  unfold config_callback. destruct config as [d|]; [|apply extends_error].
  destruct (apps d); [apply extends_error|].
  eapply extends_trans; [apply (extends_data d)|apply extends_initBackplane].
Qed.

Lemma extends_fetchConfig c : extends c (_fetchConfig c).
Proof.
  unfold _fetchConfig. destruct (_isManuallyConfigured c); [apply extends_config_callback|].
  eapply extends_trans; [|apply extends_pending].
  apply extends_event. exact I.
Qed.

Lemma extends_step i c : extends c (step i c).
Proof.
  unfold step.
  destruct (pending c) as [[| |]|], i; try apply extends_refl.
  - eapply extends_trans; [apply (extends_pending None)|apply extends_config_callback].
  - eapply extends_trans; [apply (extends_pending None)|]. unfold onError.
    eapply extends_trans; [apply extends_error|apply extends_config_callback].
  - eapply extends_trans; [apply (extends_pending None)|apply extends_user_callback].
  - eapply extends_trans; [apply (extends_pending None)|]. apply extends_container.
Qed.


Lemma extends_init c :
  exists c0,
    debug c0 = debug c /\ registry c0 = registry c /\ trace c0 = trace c
    /\ extends c0 (init c).
Proof.
  unfold init. destruct (truthy (initialized c)).
  - exists c. do 3 (split; [reflexivity|]). apply extends_error.
  - destruct (_ && _).
    + exists (_getOverrides c). do 3 (split; [reflexivity|]). apply extends_error.
    + exists (set_initialized (VBool true) (_getOverrides c)).
      do 3 (split; [reflexivity|]). apply extends_fetchConfig.
Qed.

Lemma destroyed_creates_nothing l :
  flat_map (fun e => match e with Created i => [i] | _ => [] end) (map Destroyed l) = [].
Proof. induction l; [reflexivity|assumption]. Qed.

Lemma destroyed_logs_nothing l :
  flat_map (fun e => match e with Logged r => [r] | _ => [] end) (map Destroyed l) = [].
Proof. induction l; [reflexivity|assumption]. Qed.

Lemma destroyed_publishes_nothing l :
  flat_map (fun e => match e with Published r => [r] | _ => [] end) (map Destroyed l) = [].
Proof. induction l; [reflexivity|assumption]. Qed.

(** X17: the registry holds what was created, and keeps it.  [init]
    and every later stage of the pipeline add to the registry exactly
    the instances they create, in the order of creation, and take none
    away; [destroy] creates nothing and leaves the registry as it is. *)
Theorem registry_holds_what_was_created :
  forall (c : Canvas) (i : Input),
    (exists l, registry (init c) = registry c ++ map Some l
               /\ created (init c) = created c ++ l)
    /\ (exists l, registry (step i c) = registry c ++ map Some l
                  /\ created (step i c) = created c ++ l)
    /\ registry (destroy c) = registry c
    /\ created (destroy c) = created c.
Proof.
  intros c i. split; [|split].
  - destruct (extends_init c) as (c0 & _ & R & T & _ & _ & (l & Rl & Cl) & _).
    exists l. unfold created in *. rewrite Rl, Cl, R, T. split; reflexivity.
  - destruct (extends_step i c) as (_ & _ & H & _). exact H.
  - unfold destroy. rewrite destroy_apps. split; [reflexivity|].
    unfold created. cbn. rewrite flat_map_app, destroyed_creates_nothing. apply app_nil_r.
Qed.

(** X18: every report of [init] and of the later stages is logged; it
    is also published as [Echo.Canvas.onError] when the debug flag is
    set, and not otherwise.  [destroy] reports nothing. *)
Theorem errors_are_published_in_debug_mode_only :
  forall (c : Canvas) (i : Input),
    (exists rs, reports (init c) = reports c ++ rs
                /\ published (init c) = published c ++ (if debug c then rs else []))
    /\ (exists rs, reports (step i c) = reports c ++ rs
                   /\ published (step i c) = published c ++ (if debug c then rs else []))
    /\ reports (destroy c) = reports c
    /\ published (destroy c) = published c.
Proof.
  intros c i. split; [|split].
  - destruct (extends_init c) as (c0 & D & R & T & _ & _ & _ & (rs & Rs & Ps)).
    exists rs. unfold reports, published in *. rewrite Rs, Ps, T, D. split; reflexivity.
  - destruct (extends_step i c) as (_ & _ & _ & H). exact H.
  - unfold destroy. rewrite destroy_apps. unfold reports, published. cbn.
    rewrite !flat_map_app, destroyed_logs_nothing, destroyed_publishes_nothing, !app_nil_r.
    split; reflexivity.
Qed.

(** X19: the marker of the target is set by [init] alone, when the
    target is not marked yet and the configuration passes the guard
    (the data are given, or [id] and [appkey] are there); otherwise
    [init] leaves it.  No later stage of the pipeline touches it,
    whatever arrives, a failure included. *)
Theorem marker_is_set_by_init_alone :
  forall (c : Canvas) (i : Input),
    initialized (step i c) = initialized c
    /\ initialized (init c)
       = (if negb (truthy (initialized c)) && passes_guard c
          then VBool true else initialized c).
Proof.
  intros c i. split.
  - destruct (extends_step i c) as (_ & H & _). exact H.
  - unfold init, passes_guard. destruct (truthy (initialized c)); [reflexivity|].
    change (_isManuallyConfigured (_getOverrides c)) with (_isManuallyConfigured c).
    cbn [negb andb].
    destruct (_isManuallyConfigured c); cbn [negb andb orb].
    + destruct (extends_fetchConfig (set_initialized (VBool true) (_getOverrides c)))
        as (_ & H & _). exact H.
    + destruct (truthy _ && truthy _); cbn [negb].
      * destruct (extends_fetchConfig (set_initialized (VBool true) (_getOverrides c)))
          as (_ & H & _). exact H.
      * reflexivity.
Qed.


Lemma getOverrides_twice c : _getOverrides (_getOverrides c) = _getOverrides c.
Proof.
  unfold _getOverrides, set_config. cbn.
  destruct (target_id c), (target_appkey c); reflexivity.
Qed.

Lemma init_fetches c :
  truthy (initialized c) = false ->
  data c = None ->
  truthy (config_id (_getOverrides c)) && truthy (config_appkey (_getOverrides c)) = true ->
  init c = set_pending (Some AwaitConfig)
             (emit [Requested (config_id (_getOverrides c))]
                (set_initialized (VBool true) (_getOverrides c))).
Proof.
  intros I D G. unfold init. rewrite I.
  unfold _fetchConfig, _isManuallyConfigured. cbn [data _getOverrides set_config set_initialized].
  rewrite D, G. reflexivity.
Qed.

Lemma requests_destroyed l :
  filter (fun e => match e with
                   | Requested _ | SessionCalled _ | Download _ => true
                   | _ => false
                   end) (map Destroyed l) = [].
Proof. induction l; [reflexivity|assumption]. Qed.

Lemma requests_reported isDebug r :
  filter (fun e => match e with
                   | Requested _ | SessionCalled _ | Download _ => true
                   | _ => false
                   end) (report_events isDebug r) = [].
Proof. unfold report_events. destruct isDebug, (renderError r); reflexivity. Qed.

(** X20: a canvas whose configuration could not be fetched stays
    marked.  A second [init] reports [canvas_already_initialized] and
    sends nothing; only after [destroy] does [init] ask the storage
    again, for the same id. *)
Theorem failed_fetch_is_retried_after_destroy_only :
  forall c : Canvas,
    truthy (initialized c) = false ->
    data c = None ->
    truthy (config_id (_getOverrides c)) && truthy (config_appkey (_getOverrides c)) = true ->
    let failed := step ConfigError (init c) in
    reports failed = reports c ++ [unable_to_retrieve; no_config]
    /\ pending failed = None
    /\ requests (init failed) = requests failed
    /\ reports (init failed) = reports failed ++ [already_initialized]
    /\ requests (init (destroy failed))
       = requests failed ++ [Requested (config_id (_getOverrides c))]
    /\ pending (init (destroy failed)) = Some AwaitConfig.
Proof.
  intros c I D G failed.
  assert (E : failed
              = emit (report_events (debug c) unable_to_retrieve
                      ++ report_events (debug c) no_config)
                  (set_pending None
                     (emit [Requested (config_id (_getOverrides c))]
                        (set_initialized (VBool true) (_getOverrides c))))).
  { subst failed. rewrite (init_fetches c I D G). unfold step, onError, config_callback, _error.
    cbn [pending set_pending]. rewrite emit_emit. reflexivity. }
  assert (F : init failed = emit (report_events (debug c) already_initialized) failed).
  { unfold init. rewrite E at 1. cbn [initialized emit set_pending set_initialized truthy].
    unfold _error. rewrite E at 1. reflexivity. }
  split.
  { rewrite E, reports_emit. unfold reports. cbn.
    rewrite flat_map_app. destruct (debug c); cbn; rewrite app_nil_r; reflexivity. }
  split; [rewrite E; reflexivity|].
  split; [rewrite F, requests_emit, requests_reported; apply app_nil_r|].
  split; [rewrite F, reports_emit; destruct (debug c); reflexivity|].
  assert (R : init (destroy failed)
              = set_pending (Some AwaitConfig)
                  (emit [Requested (config_id (_getOverrides c))]
                     (set_initialized (VBool true) (_getOverrides (destroy failed))))).
  { rewrite <- (getOverrides_twice c). 
    replace (config_id (_getOverrides (_getOverrides c)))
      with (config_id (_getOverrides (destroy failed))).
    - apply init_fetches.
      + reflexivity.
      + unfold destroy. rewrite destroy_apps. rewrite E. cbn. exact D.
      + unfold destroy. rewrite destroy_apps. rewrite E.
        rewrite <- (getOverrides_twice c) in G. exact G.
    - unfold destroy. rewrite destroy_apps. rewrite E. reflexivity. }
  split; [|rewrite R; reflexivity].
  rewrite R. unfold requests. cbn. unfold destroy. rewrite destroy_apps. cbn.
  rewrite !filter_app, requests_destroyed. cbn. rewrite app_nil_r. reflexivity.
Qed.

Lemma failed_fetch_is_retried_after_destroy_only_witness :
  requests (init (step ConfigError (init (Samples.canvas false))))
  = requests (step ConfigError (init (Samples.canvas false)))
  /\ requests (init (destroy (step ConfigError (init (Samples.canvas false)))))
     = requests (step ConfigError (init (Samples.canvas false)))
       ++ [Requested (VStr "canvas-1")].
Proof.
  pose proof (failed_fetch_is_retried_after_destroy_only (Samples.canvas false)
                eq_refl eq_refl eq_refl) as H.
  cbv zeta in H.
  exact (conj (proj1 (proj2 (proj2 H))) (proj1 (proj2 (proj2 (proj2 (proj2 H)))))).
Defined.

(** X21: [destroy] does not forget the instances it has destroyed: a
    second [destroy] calls the [destroy] of every instance of the
    registry again. *)
Theorem destroy_twice_destroys_twice :
  forall c : Canvas,
    trace (destroy (destroy c))
    = trace c ++ map Destroyed (live (registry c)) ++ map Destroyed (live (registry c)).
Proof.
  intro c. unfold destroy. rewrite !destroy_apps. cbn. rewrite <- app_assoc. reflexivity.
Qed.


(** X22: [init] of a canvas that is given its data (with at least one
    app) on a target that is not marked.  Nothing is asked of the
    storage: Backplane is initialized, and then the session is called,
    and awaited, exactly when no session was given and an appkey is
    there; otherwise the scripts of the complete descriptors are
    downloaded at once, the incomplete ones being reported.  The session
    given in the configuration is left as it is. *)
Theorem session_is_called_when_needed :
  forall (c : Canvas) (d : Data),
    truthy (initialized c) = false ->
    data c = Some d ->
    apps d <> [] ->
    trace (init c)
    = trace c ++ BackplaneInit (backplane d)
        :: (if needs_session c
            then [SessionCalled (config_appkey (_getOverrides c))]
            else flat_map (fun app => report_events (debug c) (incomplete app))
                   (filter (fun app => negb (complete (debug c) true app)) (apps d))
                 ++ [Download (map (_getAppScriptURL (debug c))
                                 (filter (complete (debug c) true) (apps d)))])
    /\ pending (init c) = Some (if needs_session c then AwaitSession else AwaitDownload)
    /\ config_user (init c) = config_user c.
Proof.
  intros c d I D A.
  set (c' := emit [BackplaneInit (backplane d)]
               (set_data d (set_initialized (VBool true) (_getOverrides c)))).
  assert (E : init c = _initUser c').
  { unfold init. rewrite I.
    unfold _fetchConfig, _isManuallyConfigured.
    cbn [data _getOverrides set_config set_initialized]. rewrite D.
    unfold config_callback. destruct (apps d) as [|app rest]; [contradiction|].
    reflexivity. }
  rewrite E. unfold _initUser, needs_session.
  change (config_user c') with (config_user c).
  change (config_appkey c') with (config_appkey (_getOverrides c)).
  destruct (config_user c) as [u|] eqn:U.
  - unfold user_callback, _loadAppResources. rewrite collect_spec.
    cbn. rewrite <- !app_assoc. repeat split.
  - destruct (truthy (config_appkey (_getOverrides c))); cbn [negb].
    + cbn. rewrite U, <- app_assoc. repeat split.
    + unfold user_callback, _loadAppResources. rewrite collect_spec.
      cbn. rewrite <- !app_assoc. repeat split.
Qed.


Lemma live_app l l' : live (l ++ l') = live l ++ live l'.
Proof. unfold live. apply flat_map_app. Qed.

Lemma instance_of_initApp components app position c a k :
  instance_of (_initApp components app position c) a k = instance_of c a k.
Proof. unfold _initApp. destruct (negb _); reflexivity. Qed.

Lemma container_instances components l position c :
  live (registry (container components l position c))
  = live (registry c)
    ++ map (fun ak => instance_of c (fst ak) (snd ak))
         (filter (fun ak => getComponent components (component (fst ak)))
            (combine l (seq position (List.length l))))
  /\ reports (container components l position c)
     = reports c
       ++ map no_class
            (filter (fun app => negb (getComponent components (component app))) l).
Proof.
  revert position c. induction l as [|app l IH]; intros position c.
  - cbn. rewrite !app_nil_r. split; reflexivity.
  - cbn [container List.length seq combine filter fst snd map].
    destruct (IH (S position) (_initApp components app position c)) as [R E].
    rewrite R, E. clear R E IH.
    rewrite (map_ext _ (fun ak => instance_of c (fst ak) (snd ak)))
      by (intros [a k]; apply instance_of_initApp).
    unfold _initApp.
    destruct (getComponent components (component app)) eqn:G; cbn [negb].
    + cbn [registry push emit map]. rewrite live_app, <- !app_assoc. split; [reflexivity|].
      unfold reports. cbn. rewrite flat_map_app. cbn. rewrite app_nil_r. reflexivity.
    + split; [reflexivity|].
      unfold _error. rewrite reports_emit. cbn [map]. rewrite <- app_assoc.
      destruct (debug c); reflexivity.
Qed.

Lemma session_is_called_when_needed_witness :
  pending (init Samples.manual) = Some AwaitDownload
  /\ config_user (init Samples.manual) = None.
Proof.
  refine (proj2 (session_is_called_when_needed Samples.manual _ eq_refl eq_refl _)).
  discriminate.
Defined.

(** X23: when the downloads end, the renderer of the container creates
    one instance for each descriptor whose component is registered, in
    the order of the descriptors.  The id of an instance is the id of
    its descriptor, or its position among all the descriptors of the
    data, those without a registered component included; each of these
    is reported as [no_suitable_app_class]. *)
Theorem instances_take_their_position :
  forall (c : Canvas) (components : list string),
    pending c = Some AwaitDownload ->
    live (registry (step (Downloaded components) c))
    = live (registry c)
      ++ map (fun ak => instance_of c (fst ak) (snd ak))
           (filter (fun ak => getComponent components (component (fst ak)))
              (combine (data_apps c) (seq 0 (List.length (data_apps c)))))
    /\ reports (step (Downloaded components) c)
       = reports c
         ++ map no_class
              (filter (fun app => negb (getComponent components (component app)))
                 (data_apps c)).
Proof.
  intros c components P. unfold step. rewrite P. unfold parent.
  exact (container_instances components (data_apps c) 0 (set_pending None c)).
Qed.

Lemma instances_take_their_position_witness :
  map inst_id
    (live (registry
             (step (Downloaded ["Echo.StreamServer.Controls.Stream"%string])
                (_loadAppResources Samples.manual))))
  = [VNum 0].
Proof.
  exact (f_equal (map inst_id)
           (proj1 (instances_take_their_position (_loadAppResources Samples.manual)
                     ["Echo.StreamServer.Controls.Stream"%string] eq_refl))).
Defined.

(** X24: when the storage answers with no configuration, or with one
    that has no apps, that is reported as [invalid_canvas_config], with
    the message of the case, and shown in the target; the data are not
    stored, nothing is sent and nothing is created. *)
Theorem empty_configuration_is_shown :
  forall (c : Canvas) (config : option Data),
    pending c = Some AwaitConfig ->
    match config with Some d => apps d = [] | None => True end ->
    let r := match config with Some _ => no_apps | None => no_config end in
    step (ConfigData config) c = emit (report_events (debug c) r) (set_pending None c)
    /\ reports (step (ConfigData config) c) = reports c ++ [r]
    /\ data (step (ConfigData config) c) = data c
    /\ requests (step (ConfigData config) c) = requests c
    /\ registry (step (ConfigData config) c) = registry c.
Proof.
  intros c config P H r.
  assert (E : step (ConfigData config) c
              = emit (report_events (debug c) r) (set_pending None c)).
  { unfold step. rewrite P. subst r. destruct config as [d|]; cbn [config_callback].
    - rewrite H. reflexivity.
    - reflexivity. }
  rewrite E, reports_emit, requests_emit, requests_reported, app_nil_r.
  repeat split. subst r. destruct config, (debug c); reflexivity.
Qed.

Lemma empty_configuration_is_shown_witness :
  reports (step (ConfigData (Some {| apps := []; backplane := VUndefined |}))
             (init (Samples.canvas false)))
  = [no_apps].
Proof.
  pose proof (empty_configuration_is_shown (init (Samples.canvas false))
                (Some {| apps := []; backplane := VUndefined |}) eq_refl eq_refl) as H.
  cbv zeta in H. exact (proj1 (proj2 H)).
Defined.

End CanvasLifecycle.
